(** * MrcInterpreter: interpreting an I/O stream as MRC / CCP4 map data

    A shallow embedding of [python_dependencies/mrcfile/mrcinterpreter.py].

    The Python object and the stream it owns are one explicit state; every
    method is a computation in a state-and-exception monad, because a Python
    exception leaves behind whatever was mutated before it was raised.  The
    stream is an in-memory byte stream in the manner of [io.BytesIO] that
    also records every method call it receives. *)

From Stdlib Require Import String DecimalString.
From Stdlib Require Import List ZArith Bool Lia PeanoNat.
From Stdlib Require Import Strings.Byte.
Import ListNotations.

Local Open Scope Z_scope.
Local Open Scope list_scope.

(** ** Python values that occur in the module *)

Definition bytes := list byte.

Definition bytes_eqb (a b : bytes) : bool :=
  if list_eq_dec Byte.byte_eq_dec a b then true else false.

(** The exceptions that can travel through [MrcInterpreter]'s methods. *)
Inductive exn : Type :=
| ValueError (msg : string)
| TypeError (msg : string)
| AttributeError (msg : string)
| OverflowError (msg : string)
| OtherError (msg : string).

(** [str(err)] of an exception built from one message. *)
Definition str_of_exn (e : exn) : string :=
  match e with
  | ValueError m | TypeError m | AttributeError m | OverflowError m
  | OtherError m => m
  end.

(** [warnings.warn(msg, RuntimeWarning)] *)
Inductive warning : Type :=
| RuntimeWarning (msg : string).

(** ["{0}".format(n)] for a Python int. *)
Definition format_int (n : Z) : string :=
  NilZero.string_of_int (Z.to_int n).

(** Byte order characters ['<'] and ['>'] of a numpy dtype. *)
Inductive byte_order : Type :=
| LittleEndian
| BigEndian.

(** A numpy dtype, as far as this module looks at it. *)
Record dtype : Type := mk_dtype {
  dtype_str : string;
  itemsize : Z
}.

Definition V1 : dtype := mk_dtype "V1" 1.

(** A numpy array: its buffer, element type, shape and writeable flag. *)
Record ndarray : Type := mk_ndarray {
  array_bytes : bytes;
  array_dtype : dtype;
  array_shape : list Z;
  array_writeable : bool
}.

(** The header record array: the 1024 raw bytes, the byte order of its dtype
    and the writeable flag.  Changing the dtype's byte order reinterprets the
    same buffer. *)
Record header : Type := mk_header {
  header_bytes : bytes;
  header_order : byte_order;
  header_writeable : bool
}.

(** What is handed to [iostream.write]: [None], or an object that exports a
    byte buffer (a bytes string or a numpy array). *)
Inductive pyval : Type :=
| PyNone
| PyBuffer (b : bytes).

(** The largest and smallest integers that fit an index ([Py_ssize_t]) on a
    64-bit platform. *)
Definition PY_SSIZE_T_MAX : Z := 2 ^ 63 - 1.

Definition PY_SSIZE_T_MIN : Z := - 2 ^ 63.

Definition fits_index (n : Z) : bool :=
  (PY_SSIZE_T_MIN <=? n) && (n <=? PY_SSIZE_T_MAX).

(** ** The I/O stream *)

Inductive call : Type :=
| CallRead (n : Z)
| CallWrite (v : pyval)
| CallSeek (offset : Z)
| CallTruncate
| CallFlush.

Record iostream : Type := mk_iostream {
  content : bytes;
  position : nat;
  closed : bool;
  calls : list call
}.

Module Stream.

Definition closed_msg : string := "I/O operation on closed file.".

Definition log (c : call) (io : iostream) : iostream :=
  mk_iostream (content io) (position io) (closed io) (calls io ++ [c]).

Definition remaining (io : iostream) : bytes :=
  skipn (position io) (content io).

Definition index_msg : string := "cannot fit 'int' into an index-sized integer".

(** [read(n)]: at most [n] bytes from the current position; fewer only at
    the end of the input; a negative [n] reads to the end.  The size is
    converted to an index first: one that does not fit raises
    [OverflowError]. *)
Definition read (n : Z) (io : iostream) : (exn + bytes) * iostream :=
  let io := log (CallRead n) io in
  if negb (fits_index n) then (inl (OverflowError index_msg), io)
  else if closed io then (inl (ValueError closed_msg), io)
  else
    let got := if n <? 0 then remaining io
               else firstn (Z.to_nat n) (remaining io) in
    (inr got,
     mk_iostream (content io) (position io + length got)%nat (closed io) (calls io)).

(** Overwrite [buf] from [pos] on with [b], padding with zero bytes when
    [pos] lies beyond the end. *)
Definition overwrite (buf : bytes) (pos : nat) (b : bytes) : bytes :=
  firstn pos buf ++ repeat x00 (pos - length buf)%nat ++ b
    ++ skipn (pos + length b)%nat buf.

(** [write(v)]: the bytes of an object that exports a byte buffer are
    written at the current position; [None] exports none. *)
Definition write (v : pyval) (io : iostream) : (exn + unit) * iostream :=
  let io := log (CallWrite v) io in
  if closed io then (inl (ValueError closed_msg), io)
  else match v with
       | PyBuffer b =>
           (inr tt,
            mk_iostream (overwrite (content io) (position io) b)
                        (position io + length b)%nat (closed io) (calls io))
       | PyNone =>
           (inl (TypeError "a bytes-like object is required, not 'NoneType'"), io)
       end.

Definition seek (offset : Z) (io : iostream) : (exn + unit) * iostream :=
  let io := log (CallSeek offset) io in
  if closed io then (inl (ValueError closed_msg), io)
  else if offset <? 0 then (inl (ValueError "negative seek value"), io)
  else (inr tt,
        mk_iostream (content io) (Z.to_nat offset) (closed io) (calls io)).

(** [truncate()]: cut the stream at the current position. *)
Definition truncate (io : iostream) : (exn + unit) * iostream :=
  let io := log CallTruncate io in
  if closed io then (inl (ValueError closed_msg), io)
  else (inr tt,
        mk_iostream (firstn (position io) (content io)) (position io)
                    (closed io) (calls io)).

Definition flush (io : iostream) : (exn + unit) * iostream :=
  let io := log CallFlush io in
  if closed io then (inl (ValueError closed_msg), io)
  else (inr tt, io).

(** A fresh, open stream over [b], positioned at its start. *)
Definition of_bytes (b : bytes) : iostream := mk_iostream b 0 false [].

End Stream.

(** ** numpy operations used by the module *)

(** [np.ascontiguousarray(None)] is a zero-dimensional object array: its
    buffer holds one reference to [None] (8 bytes on a 64-bit platform),
    whose value depends on the running interpreter. *)
Class Platform : Type := {
  none_array_bytes : bytes
}.

Module Np.

(** [np.fromstring(s, dtype='V1')] *)
Definition fromstring_V1 (s : bytes) : ndarray :=
  mk_ndarray s V1 [Z.of_nat (length s)] true.

(** [np.frombuffer(buf, dtype=dt)]: a read-only one-dimensional view. *)
Definition frombuffer (buf : bytes) (dt : dtype) : exn + ndarray :=
  if itemsize dt <=? 0 then inl (ValueError "itemsize cannot be zero in type")
  else if Z.of_nat (length buf) mod itemsize dt =? 0 then
    inr (mk_ndarray buf dt [Z.of_nat (length buf) / itemsize dt] false)
  else inl (ValueError "buffer size must be a multiple of element size").

Definition prod (shape : list Z) : Z := fold_left Z.mul shape 1.

Definition size (a : ndarray) : Z := prod (array_shape a).

(** [a.reshape(shape)]: the same buffer under a new shape; one dimension
    may be given as a negative number and is then inferred. *)
Definition reshape (a : ndarray) (shape : list Z) : exn + ndarray :=
  let known := filter (fun d => 0 <=? d) shape in
  if (length known =? length shape)%nat then
    if prod shape =? size a then
      inr (mk_ndarray (array_bytes a) (array_dtype a) shape (array_writeable a))
    else inl (ValueError "cannot reshape array")
  else if (S (length known) =? length shape)%nat then
    if (prod known =? 0) || negb (size a mod prod known =? 0) then
      inl (ValueError "cannot reshape array")
    else
      inr (mk_ndarray (array_bytes a) (array_dtype a)
             (map (fun d => if d <? 0 then size a / prod known else d) shape)
             (array_writeable a))
  else inl (ValueError "can only specify one unknown dimension").

Definition set_writeable (w : bool) (a : ndarray) : ndarray :=
  mk_ndarray (array_bytes a) (array_dtype a) (array_shape a) w.

(** The buffer of [np.ascontiguousarray(x)]: an array made by [frombuffer]
    is contiguous already, and [None] becomes a zero-dimensional object
    array. *)
Definition contiguous_bytes {NP : Platform} (x : option ndarray) : bytes :=
  match x with
  | Some a => array_bytes a
  | None => none_array_bytes
  end.

(** [np.ascontiguousarray(x)], as the value later handed to [write]. *)
Definition ascontiguousarray {NP : Platform} (x : option ndarray) : pyval :=
  PyBuffer (contiguous_bytes x).

End Np.

(** ** Collaborators that [mrcinterpreter.py] imports

    [dtypes.HEADER_DTYPE], [constants.MAP_ID] and the three helpers of
    [utils] are consumed through their interfaces. *)

(** Modelled from the spec: the fixed header size, [HEADER_DTYPE.itemsize]
    (dtypes.py is not among the sources); the header is a 1024-byte record. *)
Definition HEADER_DTYPE_itemsize : nat := 1024.

(** The fields of [HEADER_DTYPE] the module reads: the map identifier and the
    machine stamp as raw bytes, [nsymbt] as an integer under a byte order;
    [nsymbt] is a 32-bit field. *)
Class HeaderDtype : Type := {
  field_map : bytes -> bytes;
  field_machst : bytes -> bytes;
  field_nsymbt : byte_order -> bytes -> Z;
  field_nsymbt_int32 :
    forall order b, - 2 ^ 31 <= field_nsymbt order b <= 2 ^ 31 - 1
}.

Class Constants : Type := {
  MAP_ID : bytes
}.

(** The pure helpers of [utils]; each may raise. *)
Class Utils : Type := {
  byte_order_from_machine_stamp : bytes -> exn + byte_order;
  data_dtype_from_header : header -> exn + dtype;
  data_shape_from_header : header -> exn + list Z
}.

(** ** The object state *)

Record MrcInterpreter : Type := mk_self {
  _header : option header;
  _extended_header : option ndarray;
  _data : option ndarray;
  _read_only : bool;
  _permissive : bool;
  _iostream : option iostream;
  warnings : list warning
}.

Definition set_header (v : option header) (s : MrcInterpreter) : MrcInterpreter :=
  mk_self v (_extended_header s) (_data s) (_read_only s) (_permissive s)
          (_iostream s) (warnings s).

Definition set_extended_header (v : option ndarray) (s : MrcInterpreter) : MrcInterpreter :=
  mk_self (_header s) v (_data s) (_read_only s) (_permissive s)
          (_iostream s) (warnings s).

Definition set_data (v : option ndarray) (s : MrcInterpreter) : MrcInterpreter :=
  mk_self (_header s) (_extended_header s) v (_read_only s) (_permissive s)
          (_iostream s) (warnings s).

Definition set_permissive (v : bool) (s : MrcInterpreter) : MrcInterpreter :=
  mk_self (_header s) (_extended_header s) (_data s) (_read_only s) v
          (_iostream s) (warnings s).

Definition set_iostream (v : option iostream) (s : MrcInterpreter) : MrcInterpreter :=
  mk_self (_header s) (_extended_header s) (_data s) (_read_only s)
          (_permissive s) v (warnings s).

Definition add_warning (w : warning) (s : MrcInterpreter) : MrcInterpreter :=
  mk_self (_header s) (_extended_header s) (_data s) (_read_only s)
          (_permissive s) (_iostream s) (warnings s ++ [w]).

(** The calls the object's stream has received so far. *)
Definition stream_calls (s : MrcInterpreter) : list call :=
  match _iostream s with
  | Some io => calls io
  | None => []
  end.

(** ** The monad of methods: state, and an exception or a result *)

Definition M (A : Type) : Type := MrcInterpreter -> (exn + A) * MrcInterpreter.

Definition ret {A} (a : A) : M A := fun s => (inr a, s).

Definition raise {A} (e : exn) : M A := fun s => (inl e, s).

Definition bind {A B} (m : M A) (k : A -> M B) : M B :=
  fun s => match m s with
           | (inr a, s') => k a s'
           | (inl e, s') => (inl e, s')
           end.

Definition gets {A} (f : MrcInterpreter -> A) : M A := fun s => (inr (f s), s).

Definition modify (f : MrcInterpreter -> MrcInterpreter) : M unit :=
  fun s => (inr tt, f s).

Declare Scope py_scope.
Delimit Scope py_scope with py.
Notation "x <- m ;; k" := (bind m (fun x => k))
  (at level 100, m at next level, right associativity) : py_scope.
Notation "m ;; k" := (bind m (fun _ => k))
  (at level 100, right associativity) : py_scope.
Local Open Scope py_scope.

(** [try: m  except Exception: pass] *)
Definition try_pass (m : M unit) : M unit :=
  fun s => match m s with
           | (inl _, s') => (inr tt, s')
           | r => r
           end.

Definition warn (msg : string) : M unit := modify (add_warning (RuntimeWarning msg)).

(** A method call on [self._iostream]; [None] has no methods. *)
Definition on_iostream {A} (name : string) (f : iostream -> (exn + A) * iostream) : M A :=
  fun s => match _iostream s with
           | None =>
               (inl (AttributeError
                       ("'NoneType' object has no attribute '" ++ name ++ "'")%string), s)
           | Some io => let (r, io') := f io in (r, set_iostream (Some io') s)
           end.

(** Looking up a method of [self._iostream], before its arguments are
    evaluated. *)
Definition iostream_attr (name : string) : M unit :=
  on_iostream name (fun io => (inr tt, io)).

Definition iostream_read (n : Z) : M bytes := on_iostream "read" (Stream.read n).
Definition iostream_write (v : pyval) : M unit := on_iostream "write" (Stream.write v).
Definition iostream_seek (o : Z) : M unit := on_iostream "seek" (Stream.seek o).
Definition iostream_truncate : M unit := on_iostream "truncate" Stream.truncate.
Definition iostream_flush : M unit := on_iostream "flush" Stream.flush.
Definition iostream_closed : M bool := on_iostream "closed" (fun io => (inr (closed io), io)).

(** Lifting a helper that returns or raises. *)
Definition lift {A} (r : exn + A) : M A :=
  match r with
  | inr a => ret a
  | inl e => raise e
  end.

(** ** The base container [MrcObject]

    Modelled from the spec: the container of [mrcobject.py] (not among the
    sources) provides [header], [extended_header], [data], [_read_only] and
    [_close_data()]; the three regions start absent, the accessors hand out
    what is held, and [_close_data()] releases the data. *)

Definition MrcObject_init (read_only : bool) : MrcInterpreter :=
  mk_self None None None read_only false None [].

Definition header_property : M (option header) := gets _header.
Definition extended_header_property : M (option ndarray) := gets _extended_header.
Definition data_property : M (option ndarray) := gets _data.

Definition _close_data : M unit := modify (set_data None).

(** An attribute of [self.header]; [None] has no attributes. *)
Definition header_attr (name : string) : M header :=
  h <- header_property ;;
  match h with
  | Some h => ret h
  | None => raise (AttributeError
                     ("'NoneType' object has no attribute '" ++ name ++ "'")%string)
  end.

(** The value a region presents to [write]. *)
Definition pyval_of_header (h : option header) : pyval :=
  match h with
  | Some h => PyBuffer (header_bytes h)
  | None => PyNone
  end.

Definition pyval_of_array (a : option ndarray) : pyval :=
  match a with
  | Some a => PyBuffer (array_bytes a)
  | None => PyNone
  end.

(** ** The methods of [MrcInterpreter] *)

Definition map_id_msg : string :=
  "Map ID string not found - not an MRC file, or file is corrupt".

Definition short_header_msg : string :=
  "Couldn't read enough bytes for MRC header".

Definition short_data_msg (nbytes : Z) (got : nat) : string :=
  ("Expected " ++ format_int nbytes ++ " bytes in data block but could only read "
     ++ format_int (Z.of_nat got))%string.

Definition no_data_msg (err : string) : string :=
  (err ++ " - data block cannot be read")%string.

Section Interpreter.

Context {HD : HeaderDtype} {CS : Constants} {UT : Utils} {NP : Platform}.

(** [_read_header] (lines 121-164): read 1024 bytes, check the map
    identifier, take the byte order from the machine stamp, keep the header
    under that byte order. *)
Definition _read_header : M unit :=
  header_str <- iostream_read (Z.of_nat HEADER_DTYPE_itemsize) ;;
  if (length header_str <? HEADER_DTYPE_itemsize)%nat then
    raise (ValueError short_header_msg)
  else
    permissive <- gets _permissive ;;
    (if negb (bytes_eqb (field_map header_str) MAP_ID) then
       if permissive then warn map_id_msg
       else raise (ValueError map_id_msg)
     else ret tt) ;;
    byte_order <-
      match byte_order_from_machine_stamp (field_machst header_str) with
      | inr order => ret order
      | inl (ValueError err) =>
          if permissive then (warn err ;; ret LittleEndian)
          else raise (ValueError err)
      | inl e => raise e
      end ;;
    read_only <- gets _read_only ;;
    modify (set_header (Some (mk_header header_str byte_order (negb read_only)))).

(** [_read_extended_header] (lines 166-174): [read(int(self.header.nsymbt))],
    kept as an array of single bytes. *)
Definition _read_extended_header : M unit :=
  iostream_attr "read" ;;
  h <- header_attr "nsymbt" ;;
  ext_header_str <- iostream_read (field_nsymbt (header_order h) (header_bytes h)) ;;
  read_only <- gets _read_only ;;
  modify (set_extended_header
            (Some (Np.set_writeable (negb read_only) (Np.fromstring_V1 ext_header_str)))).

(** [_read_data] (lines 176-212): dtype and shape from the header, the byte
    count as itemsize times every axis length, one read, and the result
    viewed under that dtype and shape. *)
Definition _read_data : M unit :=
  h <- header_property ;;
  permissive <- gets _permissive ;;
  match (match h with
         | Some h => data_dtype_from_header h
         | None => inl (AttributeError "'NoneType' object has no attribute 'mode'")
         end) with
  | inl (ValueError err) =>
      if permissive then
        warn (no_data_msg err) ;;
        modify (set_data None)
      else raise (ValueError err)
  | inl e => raise e
  | inr dtype =>
      h <- header_property ;;
      shape <- lift (match h with
                     | Some h => data_shape_from_header h
                     | None => inl (AttributeError "'NoneType' object has no attribute 'nx'")
                     end) ;;
      let nbytes := fold_left Z.mul shape (itemsize dtype) in
      data_bytes <- iostream_read nbytes ;;
      if Z.of_nat (length data_bytes) <? nbytes then
        let msg := short_data_msg nbytes (length data_bytes) in
        if permissive then
          warn msg ;;
          modify (set_data None)
        else raise (ValueError msg)
      else
        flat <- lift (Np.frombuffer data_bytes dtype) ;;
        arr <- lift (Np.reshape flat shape) ;;
        modify (set_data (Some arr)) ;;
        read_only <- gets _read_only ;;
        modify (set_data (Some (Np.set_writeable (negb read_only) arr)))
  end.

(** [_read] (lines 107-119) *)
Definition _read : M unit :=
  _read_header ;;
  _read_extended_header ;;
  _read_data.

(** [flush] (lines 222-237) *)
Definition flush : M unit :=
  read_only <- gets _read_only ;;
  if negb read_only then
    iostream_seek 0 ;;
    h <- header_property ;;
    iostream_write (pyval_of_header h) ;;
    e <- extended_header_property ;;
    iostream_write (pyval_of_array e) ;;
    d <- data_property ;;
    iostream_write (Np.ascontiguousarray d) ;;
    iostream_truncate ;;
    iostream_flush
  else ret tt.

(** [close] (lines 214-220) *)
Definition close : M unit :=
  h <- gets _header ;;
  (match h with
   | Some _ =>
       is_closed <- iostream_closed ;;
       if negb is_closed then flush else ret tt
   | None => ret tt
   end) ;;
  modify (set_header None) ;;
  modify (set_extended_header None) ;;
  _close_data.

(** [__init__] (lines 56-79): the base initialiser, then the stream and the
    permissive flag, then [_read()] when a stream is given.  [read_only] is
    the flag that the base container holds when reading starts. *)
Definition __init__ (iostream : option iostream) (permissive read_only : bool)
  : (exn + unit) * MrcInterpreter :=
  let self := MrcObject_init read_only in
  let self := set_iostream iostream self in
  let self := set_permissive permissive self in
  match iostream with
  | Some _ => _read self
  | None => (inr tt, self)
  end.

(** [__enter__], [__exit__] and [__del__] (lines 81-105) *)
Definition __enter__ : M unit := ret tt.

Definition __exit__ : M unit := close.

Definition __del__ : M unit := try_pass close.

End Interpreter.

(** ** Sequences of operations on one object *)

Inductive operation : Type :=
| OpRead
| OpReadHeader
| OpReadExtendedHeader
| OpReadData
| OpFlush
| OpClose
| OpEnter
| OpExit
| OpDel.

Section Operations.

Context {HD : HeaderDtype} {CS : Constants} {UT : Utils} {NP : Platform}.

Definition perform (o : operation) : M unit :=
  match o with
  | OpRead => _read
  | OpReadHeader => _read_header
  | OpReadExtendedHeader => _read_extended_header
  | OpReadData => _read_data
  | OpFlush => flush
  | OpClose => close
  | OpEnter => __enter__
  | OpExit => __exit__
  | OpDel => __del__
  end.

(** The caller goes on to the next operation whether or not one raised. *)
Fixpoint perform_all (ops : list operation) (s : MrcInterpreter) : MrcInterpreter :=
  match ops with
  | [] => s
  | o :: ops => perform_all ops (snd (perform o s))
  end.

End Operations.

(** Calls that change the stream's content or position. *)
Definition is_write_seek_truncate (c : call) : bool :=
  match c with
  | CallWrite _ | CallSeek _ | CallTruncate => true
  | CallRead _ | CallFlush => false
  end.

(** The bytes of the object's stream. *)
Definition stream_content (s : MrcInterpreter) : bytes :=
  match _iostream s with
  | Some io => content io
  | None => []
  end.

(** ** A concrete set of collaborators: the MRC2014 layout *)

Module MRC2014.

Definition slice (off len : nat) (b : bytes) : bytes := firstn len (skipn off b).

Definition uint_le (w : bytes) : Z :=
  fold_right (fun b acc => Z.of_N (Byte.to_N b) + 256 * acc) 0 w.

(** A 4-byte word as a signed 32-bit integer ([i4]) under a byte order:
    its unsigned value, within 32 bits, read in two's complement. *)
Definition int32 (order : byte_order) (w : bytes) : Z :=
  let u := match order with
           | LittleEndian => uint_le w
           | BigEndian => uint_le (rev w)
           end mod 2 ^ 32 in
  if u <? 2 ^ 31 then u else u - 2 ^ 32.

Definition field_i4 (off : nat) (h : header) : Z :=
  int32 (header_order h) (slice off 4 (header_bytes h)).

(** Modelled from the spec: the fields of [HEADER_DTYPE] that the module
    reads (dtypes.py is not among the sources): a map-identifier field, a
    machine-stamp field and [nsymbt], the byte length of the extended header;
    their offsets 208, 212 and 92 are those of the MRC2014 format. *)
#[export] Instance header_dtype : HeaderDtype.
Proof.
  refine {| field_map := slice 208 4;
            field_machst := slice 212 4;
            field_nsymbt := fun order b => int32 order (slice 92 4 b) |}.
  intros order b. unfold int32.
  set (u := match order with
            | LittleEndian => uint_le (slice 92 4 b)
            | BigEndian => uint_le (rev (slice 92 4 b))
            end mod 2 ^ 32).
  assert (Hu : 0 <= u < 2 ^ 32) by (apply Z.mod_pos_bound; reflexivity).
  change (2 ^ 32) with 4294967296 in *. change (2 ^ 31) with 2147483648 in *.
  destruct (Z.ltb_spec u 2147483648); lia.
Defined.

(** Modelled from the spec: the expected format marker [MAP_ID]
    (constants.py is not among the sources), the four bytes of ["MAP "]. *)
#[export] Instance constants : Constants := {
  MAP_ID := [x4d; x41; x50; x20]
}.

(** Modelled from the spec: [utils.byte_order_from_machine_stamp] (utils.py
    is not among the sources), a lookup table of recognised stamp patterns;
    an unrecognised stamp raises. *)
Definition byte_order_from_machine_stamp (machst : bytes) : exn + byte_order :=
  match machst with
  | x44 :: x44 :: _ => inr LittleEndian
  | x44 :: x41 :: _ => inr LittleEndian
  | x11 :: x11 :: _ => inr BigEndian
  | _ => inl (ValueError "Unrecognised machine stamp")
  end.

(** Modelled from the spec: [utils.data_dtype_from_header] (utils.py is not
    among the sources), a fixed mapping from the mode field to an element
    type; an unrecognised mode raises. *)
Definition data_dtype_from_header (h : header) : exn + dtype :=
  let mode := field_i4 12 h in
  if mode =? 0 then inr (mk_dtype "i1" 1)
  else if mode =? 1 then inr (mk_dtype "i2" 2)
  else if mode =? 2 then inr (mk_dtype "f4" 4)
  else if mode =? 4 then inr (mk_dtype "c8" 8)
  else if mode =? 6 then inr (mk_dtype "u2" 2)
  else inl (ValueError ("Unrecognised mode '" ++ format_int mode ++ "'")%string).

(** Modelled from the spec: [utils.data_shape_from_header] (utils.py is not
    among the sources), the shape [(nz, ny, nx)] from the dimension fields. *)
Definition data_shape_from_header (h : header) : exn + list Z :=
  inr [field_i4 8 h; field_i4 4 h; field_i4 0 h].

(** An example platform: the reference to [None] as eight bytes. *)
#[export] Instance platform : Platform := {
  none_array_bytes := [x60; xa5; x93; x00; x00; x00; x00; x00]
}.

#[export] Instance utils : Utils := {
  byte_order_from_machine_stamp := byte_order_from_machine_stamp;
  data_dtype_from_header := data_dtype_from_header;
  data_shape_from_header := data_shape_from_header
}.

(** *** Example files *)

Definition put (off : nat) (w : bytes) (buf : bytes) : bytes :=
  firstn off buf ++ w ++ skipn (off + length w) buf.

Definition word (order : byte_order) (w : bytes) : bytes :=
  match order with
  | LittleEndian => w
  | BigEndian => rev w
  end.

Definition stamp (order : byte_order) : bytes :=
  match order with
  | LittleEndian => [x44; x44; x00; x00]
  | BigEndian => [x11; x11; x00; x00]
  end.

(** A header for a volume of [nx = ny = nz = 1] with the given mode (one
    byte) and extended-header length (one byte). *)
Definition example_header (order : byte_order) (mode nsymbt : byte) : bytes :=
  put 0 (word order [x01; x00; x00; x00])
    (put 4 (word order [x01; x00; x00; x00])
      (put 8 (word order [x01; x00; x00; x00])
        (put 12 (word order [mode; x00; x00; x00])
          (put 92 (word order [nsymbt; x00; x00; x00])
            (put 208 [x4d; x41; x50; x20]
              (put 212 (stamp order)
                (repeat x00 HEADER_DTYPE_itemsize))))))).

(** The float32 value 1.5 *)
Definition one_and_a_half (order : byte_order) : bytes :=
  word order [x00; x00; xc0; x3f].

Definition example_ext : bytes := [x65; x78; x74].

(** A valid file: header, three bytes of extended header, one float32. *)
Definition example_file (order : byte_order) : bytes :=
  example_header order x02 x03 ++ example_ext ++ one_and_a_half order.

(** The same file with a mode that maps to no element type. *)
Definition bad_mode_file : bytes :=
  example_header LittleEndian x03 x03 ++ example_ext ++ one_and_a_half LittleEndian.


(** A header with neither the map identifier nor a recognised stamp. *)
Definition blank_header : bytes := repeat x00 HEADER_DTYPE_itemsize.

(** A read-only object over the valid file, as opened. *)
Definition read_only_object : MrcInterpreter :=
  snd (__init__ (Some (Stream.of_bytes (example_file LittleEndian))) false true).

(** A writable object over the valid file followed by trailing bytes. *)
Definition writable_object : MrcInterpreter :=
  snd (__init__ (Some (Stream.of_bytes (example_file LittleEndian ++ [xff; xff])))
         false false).

(** A writable object opened permissively over the file of unknown mode:
    its data is absent. *)
Definition degraded_object : MrcInterpreter :=
  snd (__init__ (Some (Stream.of_bytes bad_mode_file)) true false).

End MRC2014.

(** ** The claims that fail on some input, as predicates *)

Section Claims.

Context {HD : HeaderDtype} {CS : Constants} {UT : Utils} {NP : Platform}.

(** In strict mode an unrecognised machine stamp makes header decoding raise
    the byte-order error, whatever the rest of the header. *)
Definition strict_stamp_error_claim (hdr : bytes) : Prop :=
  forall err s,
    byte_order_from_machine_stamp (field_machst hdr) = inl (ValueError err) ->
    _permissive s = false ->
    _iostream s = Some (Stream.of_bytes hdr) ->
    fst (_read_header s) = inl (ValueError err).


(** A second [close()] raises nothing and issues no call on the stream. *)
Definition close_twice_claim (s : MrcInterpreter) : Prop :=
  let s1 := snd (close s) in
  fst (close s1) = inr tt /\ stream_calls (snd (close s1)) = stream_calls s1.

(** [flush()] on a writable object whose data is absent ends in an error. *)
Definition flush_fails_claim (s : MrcInterpreter) : Prop :=
  _read_only s = false ->
  _data s = None ->
  exists err, fst (flush s) = inl err.

End Claims.

(** ** Example objects *)

Section Examples.

#[local] Existing Instance MRC2014.header_dtype.
#[local] Existing Instance MRC2014.constants.
#[local] Existing Instance MRC2014.utils.
#[local] Existing Instance MRC2014.platform.

(** A strict and a permissive object about to read the blank header. *)
Definition strict_blank : MrcInterpreter :=
  set_iostream (Some (Stream.of_bytes MRC2014.blank_header)) (MrcObject_init false).

Definition permissive_blank : MrcInterpreter :=
  set_permissive true strict_blank.

(** An object that has read the header and the extended header of a file. *)
Definition before_data (permissive : bool) (file : bytes) : MrcInterpreter :=
  snd (bind _read_header (fun _ => _read_extended_header)
         (set_permissive permissive
            (set_iostream (Some (Stream.of_bytes file)) (MrcObject_init false)))).


(** An object that has read the header of the valid file, whose stream ends
    after two of the three declared bytes of extended header. *)
Definition header_only (permissive : bool) : MrcInterpreter :=
  snd (_read_header
         (set_permissive permissive
            (set_iostream
               (Some (Stream.of_bytes (firstn 1026 (MRC2014.example_file LittleEndian))))
               (MrcObject_init false)))).

(** The writable object after the owner of its stream has closed the
    stream. *)
Definition stream_closed_object : MrcInterpreter :=
  set_iostream
    (option_map (fun io => mk_iostream (content io) (position io) true (calls io))
       (_iostream MRC2014.writable_object))
    MRC2014.writable_object.

(** A strict writable object about to read the valid file followed by two
    trailing bytes. *)
Definition before_read : MrcInterpreter :=
  set_iostream
    (Some (Stream.of_bytes (MRC2014.example_file LittleEndian ++ [xff; xff])))
    (MrcObject_init false).

End Examples.

(** ** Computations that leave the stream's content and position alone *)

Definition no_write_seek_truncate (new : list call) : Prop :=
  Forall (fun c => is_write_seek_truncate c = false) new.

(** On a read-only object, [m] keeps the object read-only and sends the
    stream only calls that are neither write, seek nor truncate. *)
Definition quiet {A} (m : M A) : Prop :=
  forall s,
    _read_only s = true ->
    _read_only (snd (m s)) = true
    /\ exists new,
         stream_calls (snd (m s)) = stream_calls s ++ new
         /\ no_write_seek_truncate new.

(** ** Relations between the state before and after a computation *)

(** [R] relates the state before [m] to the state after it, whether [m]
    returns or raises. *)
Definition always {A} (R : MrcInterpreter -> MrcInterpreter -> Prop) (m : M A) : Prop :=
  forall s, R s (snd (m s)).

(** [R] relates the state before [m] to the state in which [m] raised. *)
Definition on_raise {A} (R : MrcInterpreter -> MrcInterpreter -> Prop) (m : M A) : Prop :=
  forall s e s', m s = (inl e, s') -> R s s'.

Definition never_raises {A} (m : M A) : Prop :=
  forall s, exists a, fst (m s) = inr a.

(** The bytes of the stream and whether it is closed. *)
Definition stream_bytes (s : MrcInterpreter) : option (bytes * bool) :=
  option_map (fun io => (content io, closed io)) (_iostream s).

Definition same_stream_bytes (s s' : MrcInterpreter) : Prop :=
  stream_bytes s' = stream_bytes s.

Definition same_regions (s s' : MrcInterpreter) : Prop :=
  _header s' = _header s
  /\ _extended_header s' = _extended_header s
  /\ _data s' = _data s.

(** On a strict object, [m] keeps the object strict and emits no warning. *)
Definition silent {A} (m : M A) : Prop :=
  forall s,
    _permissive s = false ->
    _permissive (snd (m s)) = false /\ warnings (snd (m s)) = warnings s.

(** Stream [io'] is [io] after the bytes [b] were read from it. *)
Definition consumed (io io' : iostream) (b : bytes) : Prop :=
  content io' = content io
  /\ closed io' = closed io
  /\ position io' = (position io + length b)%nat
  /\ Stream.remaining io = b ++ Stream.remaining io'.

(** The object after [close()] has released its three regions. *)
Definition released (s : MrcInterpreter) : MrcInterpreter :=
  set_data None (set_extended_header None (set_header None s)).

(** * Properties *)

(** ** The stream *)

Lemma remaining_log : forall c io, Stream.remaining (Stream.log c io) = Stream.remaining io.
Proof. reflexivity. Qed.

Lemma int32_fits_index :
  forall n, - 2 ^ 31 <= n <= 2 ^ 31 - 1 -> fits_index n = true.
Proof.
  intros n H. unfold fits_index, PY_SSIZE_T_MIN, PY_SSIZE_T_MAX.
  change (2 ^ 31) with 2147483648 in H.
  change (2 ^ 63) with 9223372036854775808.
  apply andb_true_intro. split; apply Z.leb_le; lia.
Qed.

Lemma length_fits_index :
  forall n : nat, Z.of_nat n <= PY_SSIZE_T_MAX -> fits_index (Z.of_nat n) = true.
Proof.
  intros n H. unfold fits_index, PY_SSIZE_T_MIN.
  change (2 ^ 63) with 9223372036854775808.
  apply andb_true_intro. split; apply Z.leb_le; lia.
Qed.

Lemma read_open :
  forall n io,
    fits_index n = true ->
    closed io = false ->
    Stream.read n io =
      (inr (if n <? 0 then Stream.remaining io
            else firstn (Z.to_nat n) (Stream.remaining io)),
       mk_iostream (content io)
         (Nat.add (position io)
            (length (if n <? 0 then Stream.remaining io
                     else firstn (Z.to_nat n) (Stream.remaining io))))
         false (calls io ++ [CallRead n])).
Proof.
  intros n io Hn Hc. unfold Stream.read. rewrite Hn. simpl. rewrite Hc. reflexivity.
Qed.

Lemma iostream_read_open :
  forall n s io,
    fits_index n = true ->
    _iostream s = Some io ->
    closed io = false ->
    iostream_read n s =
      (inr (if n <? 0 then Stream.remaining io
            else firstn (Z.to_nat n) (Stream.remaining io)),
       set_iostream
         (Some (mk_iostream (content io)
                  (Nat.add (position io)
                     (length (if n <? 0 then Stream.remaining io
                              else firstn (Z.to_nat n) (Stream.remaining io))))
                  false (calls io ++ [CallRead n]))) s).
Proof.
  intros n s io Hn Hio Hc. unfold iostream_read, on_iostream.
  rewrite Hio, (read_open n io Hn Hc). reflexivity.
Qed.

Lemma set_iostream_same :
  forall s io, _iostream s = Some io -> set_iostream (Some io) s = s.
Proof. intros [h e d ro p o w] io. simpl. intros ->. reflexivity. Qed.

Lemma iostream_attr_some :
  forall name s io, _iostream s = Some io -> iostream_attr name s = (inr tt, s).
Proof.
  intros name s io Hio. unfold iostream_attr, on_iostream.
  rewrite Hio, (set_iostream_same s io Hio). reflexivity.
Qed.

Lemma header_size_not_negative : (Z.of_nat HEADER_DTYPE_itemsize <? 0) = false.
Proof. reflexivity. Qed.

Lemma header_size_fits : fits_index (Z.of_nat HEADER_DTYPE_itemsize) = true.
Proof. reflexivity. Qed.

Lemma fold_mul_prod :
  forall shape a, fold_left Z.mul shape a = a * Np.prod shape.
Proof.
  unfold Np.prod. induction shape as [|d shape IH]; intros a; cbn [fold_left].
  - lia.
  - rewrite IH, (IH (1 * d)). lia.
Qed.

Lemma firstn_overwrite :
  forall buf pos b,
    (pos <= length buf)%nat ->
    firstn (pos + length b) (Stream.overwrite buf pos b) = firstn pos buf ++ b.
Proof.
  intros buf pos b Hle. unfold Stream.overwrite.
  replace (pos - length buf)%nat with 0%nat by lia. simpl repeat. simpl app.
  assert (Hl : length (firstn pos buf) = pos) by (apply firstn_length_le; lia).
  rewrite firstn_app, Hl, firstn_all2 by lia.
  replace (pos + length b - pos)%nat with (length b) by lia.
  rewrite firstn_app, firstn_all, Nat.sub_diag. simpl. rewrite app_nil_r.
  reflexivity.
Qed.

Lemma length_overwrite :
  forall buf pos b,
    (pos + length b <= length (Stream.overwrite buf pos b))%nat.
Proof.
  intros buf pos b. unfold Stream.overwrite.
  rewrite !length_app, repeat_length, length_firstn. lia.
Qed.

Lemma iostream_seek_open :
  forall o s io,
    _iostream s = Some io ->
    closed io = false ->
    0 <= o ->
    iostream_seek o s =
      (inr tt,
       set_iostream
         (Some (mk_iostream (content io) (Z.to_nat o) false
                  (calls io ++ [CallSeek o]))) s).
Proof.
  intros o s io Hio Hc Ho. unfold iostream_seek, on_iostream, Stream.seek.
  rewrite Hio. simpl. rewrite Hc.
  apply Z.ltb_ge in Ho. rewrite Ho. reflexivity.
Qed.

Lemma iostream_write_open :
  forall b s io,
    _iostream s = Some io ->
    closed io = false ->
    iostream_write (PyBuffer b) s =
      (inr tt,
       set_iostream
         (Some (mk_iostream (Stream.overwrite (content io) (position io) b)
                  (position io + length b) false
                  (calls io ++ [CallWrite (PyBuffer b)]))) s).
Proof.
  intros b s io Hio Hc. unfold iostream_write, on_iostream, Stream.write.
  rewrite Hio. simpl. rewrite Hc. reflexivity.
Qed.

Lemma iostream_truncate_open :
  forall s io,
    _iostream s = Some io ->
    closed io = false ->
    iostream_truncate s =
      (inr tt,
       set_iostream
         (Some (mk_iostream (firstn (position io) (content io)) (position io) false
                  (calls io ++ [CallTruncate]))) s).
Proof.
  intros s io Hio Hc. unfold iostream_truncate, on_iostream, Stream.truncate.
  rewrite Hio. simpl. rewrite Hc. reflexivity.
Qed.

Lemma iostream_flush_open :
  forall s io,
    _iostream s = Some io ->
    closed io = false ->
    iostream_flush s =
      (inr tt,
       set_iostream
         (Some (mk_iostream (content io) (position io) false
                  (calls io ++ [CallFlush]))) s).
Proof.
  intros s io Hio Hc. unfold iostream_flush, on_iostream, Stream.flush, Stream.log.
  rewrite Hio. simpl. rewrite Hc. reflexivity.
Qed.

Lemma set_iostream_twice :
  forall v w s, set_iostream v (set_iostream w s) = set_iostream v s.
Proof. reflexivity. Qed.

Section Properties.

Context {HD : HeaderDtype} {CS : Constants} {UT : Utils} {NP : Platform}.

(** ** Header decoding *)

Lemma read_header_short :
  forall s io,
    _iostream s = Some io ->
    closed io = false ->
    (length (Stream.remaining io) < HEADER_DTYPE_itemsize)%nat ->
    _read_header s =
      (inl (ValueError short_header_msg),
       set_iostream
         (Some (mk_iostream (content io)
                  (position io + length (Stream.remaining io))%nat false
                  (calls io ++ [CallRead (Z.of_nat HEADER_DTYPE_itemsize)]))) s).
Proof.
  intros s io Hio Hc Hlen. unfold _read_header, bind.
  rewrite (iostream_read_open _ s io header_size_fits Hio Hc), header_size_not_negative,
    Nat2Z.id.
  rewrite firstn_all2 by lia.
  apply Nat.ltb_lt in Hlen. rewrite Hlen. reflexivity.
Qed.

(** C2: on a stream that yields fewer than 1024 bytes for the header, opening
    fails with the truncated-header [ValueError]; the failure is the same
    with the permissive flag set or not, and no warning is emitted. *)
Theorem C2_truncated_header_is_fatal :
  forall (io : iostream) (permissive read_only : bool),
    closed io = false ->
    (length (Stream.remaining io) < HEADER_DTYPE_itemsize)%nat ->
    fst (__init__ (Some io) permissive read_only) = inl (ValueError short_header_msg)
    /\ fst (__init__ (Some io) permissive read_only)
       = fst (__init__ (Some io) (negb permissive) read_only)
    /\ warnings (snd (__init__ (Some io) permissive read_only)) = []
    /\ _header (snd (__init__ (Some io) permissive read_only)) = None.
Proof.
  intros io permissive read_only Hc Hlen.
  assert (H : forall p,
             __init__ (Some io) p read_only =
               (inl (ValueError short_header_msg),
                set_iostream
                  (Some (mk_iostream (content io)
                           (position io + length (Stream.remaining io))%nat false
                           (calls io ++ [CallRead (Z.of_nat HEADER_DTYPE_itemsize)])))
                  (set_permissive p
                     (set_iostream (Some io) (MrcObject_init read_only))))).
  { intros p. unfold __init__, _read, bind.
    rewrite (read_header_short
               (set_permissive p (set_iostream (Some io) (MrcObject_init read_only)))
               io eq_refl Hc Hlen).
    reflexivity. }
  rewrite !H. simpl. auto.
Qed.

(** ** Extended-header decoding *)

(** C9: the extended header is read with one [read(nsymbt)] call and no
    length check: a declared length of zero gives an empty region, a
    declared length that the stream can supply gives exactly that many
    bytes, and a stream that holds fewer gives just those, without an error
    or a warning, whatever the permissive flag. *)
Theorem C9_extended_header_read :
  forall s h io,
    _header s = Some h ->
    _iostream s = Some io ->
    closed io = false ->
    let n := field_nsymbt (header_order h) (header_bytes h) in
    exists e s',
      _read_extended_header s = (inr tt, s')
      /\ _extended_header s' = Some e
      /\ warnings s' = warnings s
      /\ stream_calls s' = calls io ++ [CallRead n]
      /\ (0 <= n -> array_bytes e = firstn (Z.to_nat n) (Stream.remaining io))
      /\ (n = 0 -> array_bytes e = [])
      /\ (0 <= n <= Z.of_nat (length (Stream.remaining io)) ->
          Z.of_nat (length (array_bytes e)) = n)
      /\ (Z.of_nat (length (Stream.remaining io)) < n ->
          array_bytes e = Stream.remaining io).
Proof.
  intros s h io Hh Hio Hc n.
  unfold _read_extended_header. unfold bind at 1.
  rewrite (iostream_attr_some _ s io Hio).
  unfold bind, header_attr, header_property, gets, bind.
  rewrite Hh. unfold ret. fold n.
  rewrite (iostream_read_open n s io
             (int32_fits_index n (field_nsymbt_int32 _ _)) Hio Hc).
  eexists. eexists. split; [reflexivity|]. simpl.
  split; [reflexivity|]. split; [reflexivity|]. split; [reflexivity|].
  repeat split.
  - intros Hn. apply Z.ltb_ge in Hn. rewrite Hn. reflexivity.
  - intros Hn. rewrite Hn. reflexivity.
  - intros [Hn Hle]. pose proof Hn as Hn'. apply Z.ltb_ge in Hn'. rewrite Hn'.
    simpl. rewrite length_firstn. lia.
  - intros Hlt. destruct (n <? 0) eqn:E; [reflexivity|].
    apply firstn_all2. lia.
Qed.

(** ** Data decoding *)

(** C4: when the header's mode maps to no element type, strict mode re-raises
    the helper's [ValueError] and touches nothing; permissive mode returns
    normally with one warning and the data absent, the header, the extended
    header and the stream (position and calls) being as before. *)
Theorem C4_unrecognised_mode :
  forall s h err,
    _header s = Some h ->
    data_dtype_from_header h = inl (ValueError err) ->
    (_permissive s = false -> _read_data s = (inl (ValueError err), s))
    /\ (_permissive s = true ->
        exists s',
          _read_data s = (inr tt, s')
          /\ _data s' = None
          /\ warnings s' = warnings s ++ [RuntimeWarning (no_data_msg err)]
          /\ _header s' = _header s
          /\ _extended_header s' = _extended_header s
          /\ _iostream s' = _iostream s).
Proof.
  intros s h err Hh Hmode.
  unfold _read_data, bind, header_property, gets.
  rewrite Hh, Hmode. split; intros Hp; rewrite Hp.
  - reflexivity.
  - eexists. split; [reflexivity|]. simpl. auto.
Qed.


(** C3 (amended): the two header checks run in sequence.  In strict mode a
    map-identifier mismatch raises its [ValueError] whatever the machine
    stamp, and an unrecognised stamp raises the helper's [ValueError] when
    the map identifier matched.  In permissive mode neither failure raises:
    each adds its own warning, an unrecognised stamp falls back to
    little-endian, and the header is set in all four combinations. *)
Theorem C3_header_checks :
  forall s io,
    _iostream s = Some io ->
    closed io = false ->
    (HEADER_DTYPE_itemsize <= length (Stream.remaining io))%nat ->
    let hdr := firstn HEADER_DTYPE_itemsize (Stream.remaining io) in
    let magic_ok := bytes_eqb (field_map hdr) MAP_ID in
    let stamp := byte_order_from_machine_stamp (field_machst hdr) in
    let magic_warning := if magic_ok then [] else [RuntimeWarning map_id_msg] in
    (_permissive s = false -> magic_ok = false ->
     fst (_read_header s) = inl (ValueError map_id_msg)
     /\ warnings (snd (_read_header s)) = warnings s)
    /\ (_permissive s = false -> magic_ok = true ->
        forall err, stamp = inl (ValueError err) ->
        fst (_read_header s) = inl (ValueError err)
        /\ warnings (snd (_read_header s)) = warnings s)
    /\ (_permissive s = true \/ magic_ok = true ->
        forall order, stamp = inr order ->
        exists s',
          _read_header s = (inr tt, s')
          /\ _header s' = Some (mk_header hdr order (negb (_read_only s)))
          /\ warnings s' = warnings s ++ magic_warning)
    /\ (_permissive s = true ->
        forall err, stamp = inl (ValueError err) ->
        exists s',
          _read_header s = (inr tt, s')
          /\ _header s' = Some (mk_header hdr LittleEndian (negb (_read_only s)))
          /\ warnings s' = warnings s ++ magic_warning ++ [RuntimeWarning err]).
Proof.
  intros s io Hio Hc Hlen hdr magic_ok stamp magic_warning.
  assert (Hfull : (length hdr <? HEADER_DTYPE_itemsize)%nat = false).
  { apply Nat.ltb_ge. unfold hdr. rewrite length_firstn. lia. }
  unfold _read_header, bind.
  rewrite (iostream_read_open _ s io header_size_fits Hio Hc), header_size_not_negative,
    Nat2Z.id.
  fold hdr. rewrite Hfull. unfold gets. cbv beta iota.
  cbn [_permissive _read_only set_iostream].
  fold magic_ok. fold stamp. subst magic_warning.
  split; [|split; [|split]].
  - intros Hp Hm. rewrite Hm, Hp. split; reflexivity.
  - intros Hp Hm err Hs. rewrite Hm, Hs, Hp. split; reflexivity.
  - intros Hor order Hs. rewrite Hs.
    destruct magic_ok; simpl.
    + eexists. split; [reflexivity|]. simpl. rewrite app_nil_r. auto.
    + destruct Hor as [Hp|Hm]; [|discriminate]. rewrite Hp.
      eexists. split; [reflexivity|]. simpl. auto.
  - intros Hp err Hs. rewrite Hs, Hp.
    destruct magic_ok; simpl; eexists; (split; [reflexivity|]); simpl;
      rewrite <- ?app_assoc; auto.
Qed.

(** ** Read-only objects *)

Lemma quiet_same :
  forall {A} (m : M A),
    (forall s, _read_only (snd (m s)) = _read_only s
               /\ _iostream (snd (m s)) = _iostream s) ->
    quiet m.
Proof.
  intros A m H s Hro. destruct (H s) as [H1 H2]. split; [congruence|].
  exists []. unfold stream_calls. rewrite H2, app_nil_r.
  split; [reflexivity|constructor].
Qed.

Lemma quiet_ret : forall {A} (a : A), quiet (ret a).
Proof. intros. apply quiet_same. intros s. split; reflexivity. Qed.

Lemma quiet_raise : forall {A} (e : exn), quiet (@raise A e).
Proof. intros. apply quiet_same. intros s. split; reflexivity. Qed.

Lemma quiet_gets : forall {A} (f : MrcInterpreter -> A), quiet (gets f).
Proof. intros. apply quiet_same. intros s. split; reflexivity. Qed.

Lemma quiet_lift : forall {A} (r : exn + A), quiet (lift r).
Proof. intros A [e|a]; [apply quiet_raise|apply quiet_ret]. Qed.

Lemma quiet_warn : forall msg, quiet (warn msg).
Proof. intros. apply quiet_same. intros s. split; reflexivity. Qed.

Lemma quiet_set_header : forall v, quiet (modify (set_header v)).
Proof. intros. apply quiet_same. intros s. split; reflexivity. Qed.

Lemma quiet_set_extended_header : forall v, quiet (modify (set_extended_header v)).
Proof. intros. apply quiet_same. intros s. split; reflexivity. Qed.

Lemma quiet_set_data : forall v, quiet (modify (set_data v)).
Proof. intros. apply quiet_same. intros s. split; reflexivity. Qed.

Lemma quiet_bind :
  forall {A B} (m : M A) (k : A -> M B),
    quiet m -> (forall a, quiet (k a)) -> quiet (bind m k).
Proof.
  intros A B m k Hm Hk s Hro. unfold bind.
  destruct (Hm s Hro) as [Hro1 [new1 [Hc1 Hn1]]].
  destruct (m s) as [[e|a] s1]; simpl in *.
  - split; [assumption|]. exists new1. auto.
  - destruct (Hk a s1 Hro1) as [Hro2 [new2 [Hc2 Hn2]]].
    split; [assumption|]. exists (new1 ++ new2).
    rewrite Hc2, Hc1, app_assoc. split; [reflexivity|].
    apply Forall_app. auto.
Qed.

Lemma quiet_try_pass : forall m, quiet m -> quiet (try_pass m).
Proof.
  intros m Hm s Hro. unfold try_pass.
  destruct (Hm s Hro) as [Hro1 H1].
  destruct (m s) as [[e|a] s1]; simpl in *; auto.
Qed.

Lemma quiet_iostream_read : forall n, quiet (iostream_read n).
Proof.
  intros n s Hro. unfold iostream_read, on_iostream, stream_calls.
  destruct s as [h e d ro p [io|] w]; simpl in *.
  - unfold Stream.read. simpl.
    split; [destruct (fits_index n), (closed io); assumption|].
    exists [CallRead n]. split.
    + destruct (fits_index n), (closed io); reflexivity.
    + repeat constructor.
  - split; [assumption|]. exists []. split; [reflexivity|constructor].
Qed.

Lemma quiet_iostream_closed : quiet iostream_closed.
Proof.
  apply quiet_same. intros s. unfold iostream_closed, on_iostream.
  destruct s as [h e d ro p [io|] w]; split; reflexivity.
Qed.

Lemma quiet_iostream_attr : forall name, quiet (iostream_attr name).
Proof.
  intros name. apply quiet_same. intros s. unfold iostream_attr, on_iostream.
  destruct s as [h e d ro p [io|] w]; split; reflexivity.
Qed.

Lemma flush_read_only : forall s, _read_only s = true -> flush s = (inr tt, s).
Proof.
  intros s Hro. unfold flush, bind, gets. rewrite Hro. reflexivity.
Qed.

Lemma quiet_flush : quiet flush.
Proof.
  intros s Hro. rewrite (flush_read_only s Hro). simpl.
  split; [assumption|]. exists []. rewrite app_nil_r.
  split; [reflexivity|constructor].
Qed.

Create HintDb quiet.

#[local] Hint Resolve quiet_ret quiet_raise quiet_gets quiet_lift quiet_warn
  quiet_set_header quiet_set_extended_header quiet_set_data quiet_try_pass
  quiet_iostream_read quiet_iostream_closed quiet_iostream_attr quiet_flush : quiet.

Ltac quiet_step :=
  match goal with
  | |- quiet (bind _ _) => apply quiet_bind; [|intros]
  | |- quiet (match ?x with _ => _ end) => destruct x
  | |- quiet (if ?b then _ else _) => destruct b
  | |- quiet _ => solve [auto with quiet]
  end.

Lemma quiet_read_header : quiet _read_header.
Proof. unfold _read_header. repeat quiet_step. Qed.

Lemma quiet_read_extended_header : quiet _read_extended_header.
Proof. unfold _read_extended_header, header_attr, header_property. repeat quiet_step. Qed.

Lemma quiet_read_data : quiet _read_data.
Proof. unfold _read_data, header_property. repeat quiet_step. Qed.

Lemma quiet_read : quiet _read.
Proof.
  unfold _read. repeat quiet_step;
    auto using quiet_read_header, quiet_read_extended_header, quiet_read_data.
Qed.

Lemma quiet_close : quiet close.
Proof. unfold close, _close_data. repeat quiet_step. Qed.

Lemma quiet_perform : forall o, quiet (perform o).
Proof.
  destruct o; simpl; unfold __enter__, __exit__, __del__;
    auto using quiet_read, quiet_read_header, quiet_read_extended_header,
      quiet_read_data, quiet_close with quiet.
Qed.

Lemma close_read_only_stream :
  forall s, _read_only s = true -> _iostream (snd (close s)) = _iostream s.
Proof.
  intros s Hro. unfold close, bind, gets, iostream_closed, on_iostream.
  destruct (_header s); [|reflexivity].
  destruct (_iostream s) as [io|] eqn:Hio; [|simpl; assumption].
  rewrite (set_iostream_same s io Hio).
  destruct (closed io); simpl.
  - assumption.
  - rewrite (flush_read_only s Hro). simpl. assumption.
Qed.

(** C6: on a read-only object no sequence of operations ([_read] and its
    parts, [flush], [close], the context-manager methods and the finaliser)
    ever sends the stream a write, seek or truncate call; [flush()] does
    nothing at all, and [close()] leaves the stream as it was. *)
Theorem C6_read_only_never_writes :
  forall (ops : list operation) (s : MrcInterpreter),
    _read_only s = true ->
    (exists new,
        stream_calls (perform_all ops s) = stream_calls s ++ new
        /\ Forall (fun c => is_write_seek_truncate c = false) new)
    /\ flush s = (inr tt, s)
    /\ _iostream (snd (close s)) = _iostream s.
Proof.
  intros ops s Hro. split; [|split].
  - revert s Hro. induction ops as [|o ops IH]; intros s Hro; simpl.
    + exists []. rewrite app_nil_r. split; [reflexivity|constructor].
    + destruct (quiet_perform o s Hro) as [Hro1 [new1 [Hc1 Hn1]]].
      destruct (IH _ Hro1) as [new2 [Hc2 Hn2]].
      exists (new1 ++ new2). rewrite Hc2, Hc1, app_assoc.
      split; [reflexivity|]. apply Forall_app. auto.
  - apply flush_read_only. assumption.
  - apply close_read_only_stream. assumption.
Qed.

(** ** Writing back *)

(** What [flush()] does to the stream of a writable object that holds a
    header and an extended header: the data region is written as
    [np.ascontiguousarray(self.data)], whether the data is present or not. *)
Lemma flush_open :
  forall s h e io,
    _read_only s = false ->
    _header s = Some h ->
    _extended_header s = Some e ->
    _iostream s = Some io ->
    closed io = false ->
    flush s =
      (inr tt,
       set_iostream
         (Some (mk_iostream
                  (header_bytes h ++ array_bytes e ++ Np.contiguous_bytes (_data s))
                  (length (header_bytes h) + length (array_bytes e)
                   + length (Np.contiguous_bytes (_data s)))
                  false
                  (calls io ++
                     [CallSeek 0; CallWrite (PyBuffer (header_bytes h));
                      CallWrite (PyBuffer (array_bytes e));
                      CallWrite (PyBuffer (Np.contiguous_bytes (_data s)));
                      CallTruncate; CallFlush]))) s).
Proof.
  intros s h e io Hro Hh He Hio Hc.
  unfold flush, header_property, extended_header_property, data_property, bind, gets.
  rewrite Hro. cbn [negb].
  rewrite (iostream_seek_open 0 s io Hio Hc) by lia.
  cbn beta iota. cbn [_header _extended_header _data set_iostream]. rewrite Hh.
  cbn [pyval_of_header].
  erewrite iostream_write_open by reflexivity.
  cbn beta iota. cbn [_header _extended_header _data set_iostream]. rewrite He.
  cbn [pyval_of_array].
  erewrite iostream_write_open by reflexivity.
  cbn beta iota. cbn [_header _extended_header _data set_iostream].
  unfold Np.ascontiguousarray.
  erewrite iostream_write_open by reflexivity.
  cbn beta iota.
  erewrite iostream_truncate_open by reflexivity.
  cbn beta iota.
  erewrite iostream_flush_open by reflexivity.
  cbn [set_iostream _header _extended_header _data _read_only _permissive warnings
       content position closed calls].
  rewrite <- !app_assoc. cbn [app]. change (Z.to_nat 0) with 0%nat.
  set (hb := header_bytes h). set (eb := array_bytes e).
  set (db := Np.contiguous_bytes (_data s)).
  set (c1 := Stream.overwrite (content io) 0 hb).
  set (c2 := Stream.overwrite c1 (0 + length hb) eb).
  set (c3 := Stream.overwrite c2 (0 + length hb + length eb) db).
  assert (H1 : firstn (0 + length hb) c1 = hb).
  { unfold c1. rewrite firstn_overwrite by lia. reflexivity. }
  assert (L1 : (0 + length hb <= length c1)%nat) by apply length_overwrite.
  assert (H2 : firstn (0 + length hb + length eb) c2 = hb ++ eb).
  { unfold c2. rewrite firstn_overwrite by lia. rewrite H1. reflexivity. }
  assert (L2 : (0 + length hb + length eb <= length c2)%nat) by apply length_overwrite.
  assert (H3 : firstn (0 + length hb + length eb + length db) c3 = hb ++ eb ++ db).
  { unfold c3. rewrite firstn_overwrite by lia. rewrite H2, <- app_assoc. reflexivity. }
  rewrite H3. reflexivity.
Qed.

(** The same when the data is present. *)
Lemma flush_writable :
  forall s h e d io,
    _read_only s = false ->
    _header s = Some h ->
    _extended_header s = Some e ->
    _data s = Some d ->
    _iostream s = Some io ->
    closed io = false ->
    flush s =
      (inr tt,
       set_iostream
         (Some (mk_iostream
                  (header_bytes h ++ array_bytes e ++ array_bytes d)
                  (length (header_bytes h) + length (array_bytes e)
                   + length (array_bytes d))
                  false
                  (calls io ++
                     [CallSeek 0; CallWrite (PyBuffer (header_bytes h));
                      CallWrite (PyBuffer (array_bytes e));
                      CallWrite (PyBuffer (array_bytes d));
                      CallTruncate; CallFlush]))) s).
Proof.
  intros s h e d io Hro Hh He Hd Hio Hc.
  rewrite (flush_open s h e io Hro Hh He Hio Hc), Hd. reflexivity.
Qed.

(** C7: on a writable object in the open state -- header and extended
    header decoded, over a stream that is not closed -- [flush()] issues
    exactly seek(0), write of the header, write of the extended header,
    write of [np.ascontiguousarray(self.data)], truncate and flush;
    afterwards the stream consists of those three regions and nothing
    else, so bytes that followed the data block are gone.  The written data
    region is the data bytes when the data is present. *)
Theorem C7_flush_sequence :
  forall s h e io,
    _read_only s = false ->
    _header s = Some h ->
    _extended_header s = Some e ->
    _iostream s = Some io ->
    closed io = false ->
    exists s',
      flush s = (inr tt, s')
      /\ stream_calls s' =
           stream_calls s ++
             [CallSeek 0; CallWrite (PyBuffer (header_bytes h));
              CallWrite (PyBuffer (array_bytes e));
              CallWrite (PyBuffer (Np.contiguous_bytes (_data s)));
              CallTruncate; CallFlush]
      /\ stream_content s' =
           header_bytes h ++ array_bytes e ++ Np.contiguous_bytes (_data s)
      /\ (forall d, _data s = Some d -> Np.contiguous_bytes (_data s) = array_bytes d)
      /\ _header s' = _header s
      /\ _extended_header s' = _extended_header s
      /\ _data s' = _data s.
Proof.
  intros s h e io Hro Hh He Hio Hc.
  eexists. split; [apply (flush_open s h e io); assumption|].
  unfold stream_calls, stream_content. rewrite Hio. simpl.
  repeat match goal with |- _ /\ _ => split end; auto.
  intros d Hd. rewrite Hd. reflexivity.
Qed.

(** [flush()] changes nothing of the object but its stream. *)
Lemma flush_frame :
  forall s,
    _header (snd (flush s)) = _header s
    /\ _extended_header (snd (flush s)) = _extended_header s
    /\ _data (snd (flush s)) = _data s
    /\ _read_only (snd (flush s)) = _read_only s
    /\ warnings (snd (flush s)) = warnings s.
Proof.
  intros [h e d ro p io w].
  unfold flush, bind, gets, header_property, extended_header_property,
    data_property, iostream_seek, iostream_write, iostream_truncate,
    iostream_flush, on_iostream, Stream.seek, Stream.write, Stream.truncate,
    Stream.flush.
  destruct ro; [simpl; auto|].
  destruct io as [io|]; [|simpl; auto].
  cbn -[Stream.overwrite firstn]. destruct (closed io) eqn:Hc; [simpl; auto|].
  destruct h as [h|]; [|simpl; auto]. cbn -[Stream.overwrite firstn]. rewrite ?Hc.
  destruct e as [e|]; [|simpl; auto]. cbn -[Stream.overwrite firstn]. rewrite ?Hc.
  rewrite ?Hc. cbn -[Stream.overwrite firstn]. rewrite ?Hc.
  cbn -[Stream.overwrite firstn]. auto.
Qed.

(** C10 (amended): on a writable object whose data is absent, with header
    and extended header present over an open stream, [flush()] does not
    fail: it writes the data region all the same, as the buffer of
    [np.ascontiguousarray(None)], after the header and the extended header,
    then truncates and flushes; and [close()] returns normally as well and
    releases the regions. *)
Theorem C10_flush_without_data_writes_object_array :
  forall s h e io,
    _read_only s = false ->
    _data s = None ->
    _header s = Some h ->
    _extended_header s = Some e ->
    _iostream s = Some io ->
    closed io = false ->
    exists s',
      flush s = (inr tt, s')
      /\ stream_calls s' =
           stream_calls s ++
             [CallSeek 0; CallWrite (PyBuffer (header_bytes h));
              CallWrite (PyBuffer (array_bytes e));
              CallWrite (PyBuffer none_array_bytes);
              CallTruncate; CallFlush]
      /\ stream_content s' = header_bytes h ++ array_bytes e ++ none_array_bytes
      /\ close s = (inr tt, released s').
Proof.
  intros s h e io Hro Hd Hh He Hio Hc.
  pose proof (flush_open s h e io Hro Hh He Hio Hc) as Hflush.
  rewrite Hd in Hflush. cbn [Np.contiguous_bytes] in Hflush.
  eexists. split; [exact Hflush|].
  unfold stream_calls, stream_content. rewrite Hio. simpl.
  split; [reflexivity|]. split; [reflexivity|].
  unfold close, bind, gets, iostream_closed, on_iostream.
  rewrite Hh, Hio, (set_iostream_same s io Hio), Hc. cbn [negb].
  rewrite Hflush. reflexivity.
Qed.

(** ** Closing *)

Lemma bind_returns :
  forall {A B} (m : M A) (k : A -> M B) s b s1,
    bind m k s = (inr b, s1) ->
    exists a s0, m s = (inr a, s0) /\ k a s0 = (inr b, s1).
Proof.
  intros A B m k s b s1. unfold bind.
  destruct (m s) as [[e|a] s0]; [discriminate|].
  intros H. exists a, s0. auto.
Qed.

Lemma close_released :
  forall s s1,
    close s = (inr tt, s1) ->
    exists s', s1 = set_data None (set_extended_header None (set_header None s')).
Proof.
  intros s s1 H. unfold close in H.
  apply bind_returns in H. destruct H as [h [s0 [_ H]]].
  apply bind_returns in H. destruct H as [u [s' [_ H]]].
  exists s'. unfold bind, _close_data, modify in H. simpl in H.
  injection H as <-. reflexivity.
Qed.

(** C8 (amended): once [close()] has returned normally, the header, the
    extended header and the data are released, and a second [close()]
    returns normally without touching the object or its stream: no flush,
    no write, no call at all. *)
Theorem C8_second_close_is_a_no_op :
  forall s s1,
    close s = (inr tt, s1) ->
    close s1 = (inr tt, s1)
    /\ stream_calls (snd (close s1)) = stream_calls s1
    /\ _header s1 = None
    /\ _extended_header s1 = None
    /\ _data s1 = None.
Proof.
  intros s s1 H. destruct (close_released s s1 H) as [s' ->].
  assert (Hc : close (set_data None (set_extended_header None (set_header None s')))
               = (inr tt, set_data None (set_extended_header None (set_header None s'))))
    by reflexivity.
  rewrite Hc. simpl. auto.
Qed.

(** ** Reading a well-formed stream *)

Lemma filter_known_dimensions :
  forall shape,
    Forall (fun d => 0 <= d) shape ->
    filter (fun d => 0 <=? d) shape = shape.
Proof.
  induction 1 as [|d shape Hd _ IH]; simpl; [reflexivity|].
  replace (0 <=? d) with true by (symmetry; apply Z.leb_le; assumption).
  rewrite IH. reflexivity.
Qed.

Lemma reshape_exact :
  forall a shape,
    Forall (fun d => 0 <= d) shape ->
    Np.prod shape = Np.size a ->
    Np.reshape a shape =
      inr (mk_ndarray (array_bytes a) (array_dtype a) shape (array_writeable a)).
Proof.
  intros a shape Hpos Hsize. unfold Np.reshape.
  rewrite (filter_known_dimensions shape Hpos).
  rewrite Nat.eqb_refl, Hsize, Z.eqb_refl. reflexivity.
Qed.

Lemma frombuffer_reshape :
  forall buf dt shape,
    0 < itemsize dt ->
    Forall (fun d => 0 <= d) shape ->
    Z.of_nat (length buf) = itemsize dt * Np.prod shape ->
    exists flat,
      Np.frombuffer buf dt = inr flat
      /\ Np.reshape flat shape = inr (mk_ndarray buf dt shape false).
Proof.
  intros buf dt shape Hitem Hpos Hlen. unfold Np.frombuffer.
  replace (itemsize dt <=? 0) with false by (symmetry; apply Z.leb_gt; lia).
  rewrite Hlen, Z.mul_comm, Z_mod_mult, Z.eqb_refl, Z_div_mult by lia.
  eexists. split; [reflexivity|].
  rewrite reshape_exact.
  - reflexivity.
  - assumption.
  - unfold Np.size, Np.prod. simpl. destruct (fold_left Z.mul shape 1); reflexivity.
Qed.

(** Opening a stream that holds a valid header, the declared extended header
    and the data block the header describes, and nothing else. *)
Lemma read_valid :
  forall (hdr ext data : bytes) (order : byte_order) (dt : dtype) (shape : list Z)
         (permissive read_only : bool),
    length hdr = HEADER_DTYPE_itemsize ->
    field_map hdr = MAP_ID ->
    byte_order_from_machine_stamp (field_machst hdr) = inr order ->
    field_nsymbt order hdr = Z.of_nat (length ext) ->
    data_dtype_from_header (mk_header hdr order (negb read_only)) = inr dt ->
    data_shape_from_header (mk_header hdr order (negb read_only)) = inr shape ->
    0 < itemsize dt ->
    Forall (fun d => 0 <= d) shape ->
    Z.of_nat (length data) = itemsize dt * Np.prod shape ->
    Z.of_nat (length data) <= PY_SSIZE_T_MAX ->
    __init__ (Some (Stream.of_bytes (hdr ++ ext ++ data))) permissive read_only =
      (inr tt,
       mk_self (Some (mk_header hdr order (negb read_only)))
         (Some (mk_ndarray ext V1 [Z.of_nat (length ext)] (negb read_only)))
         (Some (mk_ndarray data dt shape (negb read_only)))
         read_only permissive
         (Some (mk_iostream (hdr ++ ext ++ data)
                  (length hdr + length ext + length data) false
                  [CallRead (Z.of_nat HEADER_DTYPE_itemsize);
                   CallRead (Z.of_nat (length ext));
                   CallRead (Z.of_nat (length data))]))
         []).
Proof.
  intros hdr ext data order dt shape permissive read_only
         Hlen Hmap Hstamp Hnsymbt Hdt Hshape Hitem Hpos Hdata Hfit.
  unfold __init__, _read.
  unfold bind at 1.
  (* header *)
  assert (H1 : _read_header
                 (set_permissive permissive
                    (set_iostream (Some (Stream.of_bytes (hdr ++ ext ++ data)))
                       (MrcObject_init read_only)))
               = (inr tt,
                  mk_self (Some (mk_header hdr order (negb read_only))) None None
                    read_only permissive
                    (Some (mk_iostream (hdr ++ ext ++ data) (length hdr) false
                             [CallRead (Z.of_nat HEADER_DTYPE_itemsize)]))
                    [])).
  { unfold _read_header, bind.
    erewrite iostream_read_open by reflexivity.
    rewrite header_size_not_negative, Nat2Z.id.
    change (Stream.remaining (Stream.of_bytes (hdr ++ ext ++ data)))
      with (hdr ++ ext ++ data).
    rewrite <- Hlen, firstn_app, Nat.sub_diag, firstn_all. cbn [firstn].
    rewrite app_nil_r, Nat.ltb_irrefl.
    unfold gets. cbn beta iota. rewrite Hmap.
    unfold bytes_eqb. destruct (list_eq_dec byte_eq_dec MAP_ID MAP_ID); [|congruence].
    cbn [negb]. unfold ret at 1. cbn beta iota.
    rewrite Hstamp. reflexivity. }
  rewrite H1. unfold bind at 1.
  (* extended header *)
  set (s1 := mk_self (Some (mk_header hdr order (negb read_only))) None None
               read_only permissive
               (Some (mk_iostream (hdr ++ ext ++ data) (length hdr) false
                        [CallRead (Z.of_nat HEADER_DTYPE_itemsize)])) []).
  assert (H2 : _read_extended_header s1
               = (inr tt,
                  mk_self (Some (mk_header hdr order (negb read_only)))
                    (Some (mk_ndarray ext V1 [Z.of_nat (length ext)] (negb read_only)))
                    None read_only permissive
                    (Some (mk_iostream (hdr ++ ext ++ data)
                             (length hdr + length ext) false
                             [CallRead (Z.of_nat HEADER_DTYPE_itemsize);
                              CallRead (Z.of_nat (length ext))]))
                    [])).
  { assert (Hn : fits_index (Z.of_nat (length ext)) = true).
    { rewrite <- Hnsymbt. apply int32_fits_index, field_nsymbt_int32. }
    unfold _read_extended_header. unfold bind at 1.
    erewrite iostream_attr_some by reflexivity.
    unfold header_attr, header_property, bind, gets, ret.
    cbn [_header s1 header_order header_bytes]. rewrite Hnsymbt.
    rewrite (iostream_read_open _ s1 _ Hn eq_refl eq_refl).
    replace (Z.of_nat (length ext) <? 0) with false by (symmetry; apply Z.ltb_ge; lia).
    rewrite Nat2Z.id.
    change (Stream.remaining _) with (skipn (length hdr) (hdr ++ ext ++ data)).
    rewrite skipn_app, Nat.sub_diag, skipn_all. cbn [skipn app].
    rewrite firstn_app, Nat.sub_diag, firstn_all. cbn [firstn].
    rewrite app_nil_r. reflexivity. }
  rewrite H2.
  (* data *)
  set (s2 := mk_self _ _ None read_only permissive _ []).
  unfold _read_data, header_property, bind, gets.
  cbn [_header _permissive s2]. rewrite Hdt. cbn beta iota.
  cbn [_header s2]. rewrite Hshape.
  unfold lift at 1, ret at 1. cbn beta iota.
  rewrite fold_mul_prod, <- Hdata.
  erewrite (iostream_read_open _ _ _ (length_fits_index _ Hfit)) by reflexivity.
  replace (Z.of_nat (length data) <? 0) with false by (symmetry; apply Z.ltb_ge; lia).
  rewrite Nat2Z.id.
  change (Stream.remaining _)
    with (skipn (length hdr + length ext) (hdr ++ ext ++ data)).
  replace (skipn (length hdr + length ext) (hdr ++ ext ++ data)) with data.
  2:{ rewrite app_assoc, skipn_app, length_app, Nat.sub_diag, <- length_app, skipn_all.
      reflexivity. }
  rewrite firstn_all, Z.ltb_irrefl.
  destruct (frombuffer_reshape data dt shape Hitem Hpos Hdata) as [flat [Hfb Hrs]].
  rewrite Hfb. unfold lift at 1, ret at 1. cbn beta iota.
  rewrite Hrs. reflexivity.
Qed.

(** C1: for every valid triple -- a 1024-byte header with the map identifier
    and a recognised machine stamp of either byte order, an extended header
    of the declared length, and a data block of itemsize times the product
    of the shape bytes -- reading the stream decodes exactly the three
    regions, and flushing writes them back: [flush()] issues seek(0), the
    writes of the header, the extended header and the data, truncate and
    flush, and leaves exactly the original bytes in the stream, in strict
    and in permissive mode alike.  The bytes come from the object, not from
    what the stream still held: flushed into any other open stream, the
    decoded object produces the original bytes as well. *)
Theorem C1_round_trip :
  forall (hdr ext data : bytes) (order : byte_order) (dt : dtype) (shape : list Z)
         (permissive : bool),
    length hdr = HEADER_DTYPE_itemsize ->
    field_map hdr = MAP_ID ->
    byte_order_from_machine_stamp (field_machst hdr) = inr order ->
    field_nsymbt order hdr = Z.of_nat (length ext) ->
    data_dtype_from_header (mk_header hdr order true) = inr dt ->
    data_shape_from_header (mk_header hdr order true) = inr shape ->
    0 < itemsize dt ->
    Forall (fun d => 0 <= d) shape ->
    Z.of_nat (length data) = itemsize dt * Np.prod shape ->
    Z.of_nat (length data) <= PY_SSIZE_T_MAX ->
    exists s1 s2,
      __init__ (Some (Stream.of_bytes (hdr ++ ext ++ data))) permissive false
        = (inr tt, s1)
      /\ _header s1 = Some (mk_header hdr order true)
      /\ option_map array_bytes (_extended_header s1) = Some ext
      /\ option_map array_bytes (_data s1) = Some data
      /\ warnings s1 = []
      /\ flush s1 = (inr tt, s2)
      /\ stream_content s2 = hdr ++ ext ++ data
      /\ stream_calls s2 =
           stream_calls s1 ++
             [CallSeek 0; CallWrite (PyBuffer hdr); CallWrite (PyBuffer ext);
              CallWrite (PyBuffer data); CallTruncate; CallFlush]
      /\ (forall other,
            closed other = false ->
            stream_content (snd (flush (set_iostream (Some other) s1)))
            = hdr ++ ext ++ data).
Proof.
  intros hdr ext data order dt shape permissive
         Hlen Hmap Hstamp Hnsymbt Hdt Hshape Hitem Hpos Hdata Hfit.
  pose proof (read_valid hdr ext data order dt shape permissive false
                Hlen Hmap Hstamp Hnsymbt Hdt Hshape Hitem Hpos Hdata Hfit) as Hopen.
  cbn [negb] in Hopen.
  eexists. eexists. split; [exact Hopen|].
  split; [reflexivity|]. split; [reflexivity|]. split; [reflexivity|].
  split; [reflexivity|]. split; [eapply flush_writable; reflexivity|].
  split; [reflexivity|]. split.
  - reflexivity.
  - intros other Hother.
    erewrite flush_writable; [|reflexivity|reflexivity|reflexivity|reflexivity
                              |reflexivity|exact Hother].
    reflexivity.
Qed.

End Properties.

(** * Further properties of the methods *)

(** ** Composing state relations *)

Lemma always_bind :
  forall {A B} (R : MrcInterpreter -> MrcInterpreter -> Prop)
         (m : M A) (k : A -> M B),
    (forall x y z, R x y -> R y z -> R x z) ->
    always R m -> (forall a, always R (k a)) -> always R (bind m k).
Proof.
  intros A B R m k Htrans Hm Hk s. unfold bind.
  specialize (Hm s). destruct (m s) as [[e|a] s1]; simpl in *.
  - assumption.
  - exact (Htrans _ _ _ Hm (Hk a s1)).
Qed.

Lemma always_unchanged :
  forall {A} (R : MrcInterpreter -> MrcInterpreter -> Prop) (m : M A),
    (forall s, R s s) -> (forall s, snd (m s) = s) -> always R m.
Proof. intros A R m Hrefl Hm s. rewrite Hm. apply Hrefl. Qed.

Lemma always_try_pass :
  forall (R : MrcInterpreter -> MrcInterpreter -> Prop) (m : M unit),
    always R m -> always R (try_pass m).
Proof.
  intros R m Hm s. unfold try_pass. specialize (Hm s).
  destruct (m s) as [[e|a] s1]; exact Hm.
Qed.

Lemma ret_unchanged : forall {A} (a : A) s, snd (ret a s) = s.
Proof. reflexivity. Qed.

Lemma raise_unchanged : forall {A} (e : exn) s, snd (@raise A e s) = s.
Proof. reflexivity. Qed.

Lemma gets_unchanged : forall {A} (f : MrcInterpreter -> A) s, snd (gets f s) = s.
Proof. reflexivity. Qed.

Lemma lift_unchanged : forall {A} (r : exn + A) s, snd (lift r s) = s.
Proof. intros A [e|a] s; reflexivity. Qed.

Ltac unchanged R_refl :=
  apply always_unchanged;
  [exact R_refl
  |first [apply ret_unchanged | apply raise_unchanged
         | apply gets_unchanged | apply lift_unchanged]].

(** ** Reading leaves the bytes of the stream alone *)

Lemma same_stream_bytes_refl : forall s, same_stream_bytes s s.
Proof. reflexivity. Qed.

Lemma same_stream_bytes_trans :
  forall x y z, same_stream_bytes x y -> same_stream_bytes y z -> same_stream_bytes x z.
Proof. unfold same_stream_bytes. intros x y z H1 H2. congruence. Qed.

Lemma bytes_iostream_read : forall n, always same_stream_bytes (iostream_read n).
Proof.
  intros n [h e d ro p [io|] w]; unfold same_stream_bytes, stream_bytes,
    iostream_read, on_iostream; simpl; [|reflexivity].
  unfold Stream.read. simpl.
  destruct (fits_index n); destruct (closed io) eqn:Hc; simpl; rewrite ?Hc; reflexivity.
Qed.

Lemma bytes_iostream_attr : forall name, always same_stream_bytes (iostream_attr name).
Proof.
  intros name [h e d ro p [io|] w]; reflexivity.
Qed.

Lemma bytes_warn : forall msg, always same_stream_bytes (warn msg).
Proof. intros msg s. reflexivity. Qed.

Lemma bytes_set_header : forall v, always same_stream_bytes (modify (set_header v)).
Proof. intros v s. reflexivity. Qed.

Lemma bytes_set_extended_header :
  forall v, always same_stream_bytes (modify (set_extended_header v)).
Proof. intros v s. reflexivity. Qed.

Lemma bytes_set_data : forall v, always same_stream_bytes (modify (set_data v)).
Proof. intros v s. reflexivity. Qed.

Create HintDb stream_bytes.

#[local] Hint Resolve bytes_iostream_read bytes_iostream_attr bytes_warn bytes_set_header
  bytes_set_extended_header bytes_set_data : stream_bytes.

Ltac bytes_step :=
  match goal with
  | |- always _ (bind _ _) =>
      apply always_bind; [exact same_stream_bytes_trans| |intros]
  | |- always _ (match ?x with _ => _ end) => destruct x
  | |- always _ (if ?b then _ else _) => destruct b
  | |- always _ _ => solve [auto with stream_bytes]
  | |- always _ _ => unchanged same_stream_bytes_refl
  end.

(** ** Warnings *)

Lemma silent_same :
  forall {A} (m : M A),
    (forall s, _permissive (snd (m s)) = _permissive s
               /\ warnings (snd (m s)) = warnings s) ->
    silent m.
Proof. intros A m H s Hp. destruct (H s) as [H1 H2]. split; congruence. Qed.

Lemma silent_ret : forall {A} (a : A), silent (ret a).
Proof. intros. apply silent_same. intros s. split; reflexivity. Qed.

Lemma silent_raise : forall {A} (e : exn), silent (@raise A e).
Proof. intros. apply silent_same. intros s. split; reflexivity. Qed.

Lemma silent_gets : forall {A} (f : MrcInterpreter -> A), silent (gets f).
Proof. intros. apply silent_same. intros s. split; reflexivity. Qed.

Lemma silent_lift : forall {A} (r : exn + A), silent (lift r).
Proof. intros A [e|a]; [apply silent_raise|apply silent_ret]. Qed.

Lemma silent_set_header : forall v, silent (modify (set_header v)).
Proof. intros. apply silent_same. intros s. split; reflexivity. Qed.

Lemma silent_set_extended_header : forall v, silent (modify (set_extended_header v)).
Proof. intros. apply silent_same. intros s. split; reflexivity. Qed.

Lemma silent_set_data : forall v, silent (modify (set_data v)).
Proof. intros. apply silent_same. intros s. split; reflexivity. Qed.

Lemma silent_on_iostream :
  forall {A} name (f : iostream -> (exn + A) * iostream), silent (on_iostream name f).
Proof.
  intros A name f. apply silent_same. intros [h e d ro p [io|] w];
    unfold on_iostream; simpl; [|auto].
  destruct (f io) as [r io']. auto.
Qed.

Lemma silent_bind :
  forall {A B} (m : M A) (k : A -> M B),
    silent m -> (forall a, silent (k a)) -> silent (bind m k).
Proof.
  intros A B m k Hm Hk s Hp. unfold bind.
  destruct (Hm s Hp) as [Hp1 Hw1].
  destruct (m s) as [[e|a] s1]; simpl in *.
  - auto.
  - destruct (Hk a s1 Hp1) as [Hp2 Hw2]. split; congruence.
Qed.

(** Once the flag has been read on a strict object, only the strict branch
    of what follows matters. *)
Lemma silent_bind_permissive :
  forall {B} (k : bool -> M B),
    silent (k false) -> silent (bind (gets _permissive) k).
Proof.
  intros B k Hk s Hp. unfold bind, gets. rewrite Hp. exact (Hk s Hp).
Qed.

Lemma silent_try_pass : forall m, silent m -> silent (try_pass m).
Proof.
  intros m Hm s Hp. unfold try_pass. specialize (Hm s Hp).
  destruct (m s) as [[e|a] s1]; exact Hm.
Qed.

Create HintDb silent.

#[local] Hint Resolve silent_ret silent_raise silent_gets silent_lift
  silent_set_header silent_set_extended_header silent_set_data
  silent_on_iostream silent_try_pass : silent.

Ltac silent_step :=
  match goal with
  | |- silent (bind (gets _permissive) _) =>
      apply silent_bind_permissive; cbv beta iota
  | |- silent (bind _ _) => apply silent_bind; [|intros]
  | |- silent (match ?x with _ => _ end) => destruct x
  | |- silent (if ?b then _ else _) => destruct b
  | |- silent _ => solve [auto with silent]
  end.

(** ** What a read takes from the stream *)

Lemma take_split :
  forall k (l : bytes), l = firstn k l ++ skipn (length (firstn k l)) l.
Proof.
  intros k l. destruct (Nat.le_gt_cases k (length l)) as [H|H].
  - rewrite (firstn_length_le l H). symmetry. apply firstn_skipn.
  - rewrite firstn_all2 by lia. rewrite skipn_all, app_nil_r. reflexivity.
Qed.

Lemma read_returns_consumed :
  forall n io got io',
    Stream.read n io = (inr got, io') ->
    closed io = false
    /\ consumed io io' got
    /\ calls io' = calls io ++ [CallRead n]
    /\ got = (if n <? 0 then Stream.remaining io
              else firstn (Z.to_nat n) (Stream.remaining io)).
Proof.
  intros n io got io' H.
  destruct (fits_index n) eqn:Hn;
    [|unfold Stream.read in H; rewrite Hn in H; discriminate H].
  destruct (closed io) eqn:Hc.
  - unfold Stream.read in H. rewrite Hn in H. simpl in H. rewrite Hc in H.
    discriminate H.
  - rewrite (read_open n io Hn Hc) in H. injection H as <- <-.
    split; [reflexivity|]. split; [|split; reflexivity].
    unfold consumed. cbn [content closed position].
    split; [reflexivity|]. split; [auto|]. split; [reflexivity|].
    unfold Stream.remaining at 1 4. cbn [content position].
    rewrite Nat.add_comm, <- skipn_skipn. fold (Stream.remaining io).
    destruct (n <? 0).
    + rewrite skipn_all, app_nil_r. reflexivity.
    + apply take_split.
Qed.

Lemma consumed_trans :
  forall io io1 io2 a b,
    consumed io io1 a -> consumed io1 io2 b -> consumed io io2 (a ++ b).
Proof.
  unfold consumed. intros io io1 io2 a b (C1 & K1 & P1 & R1) (C2 & K2 & P2 & R2).
  split; [congruence|]. split; [congruence|]. split.
  - rewrite P2, P1, length_app. lia.
  - rewrite R1, R2, app_assoc. reflexivity.
Qed.

Lemma iostream_read_returns :
  forall n s got s0,
    iostream_read n s = (inr got, s0) ->
    exists io io',
      _iostream s = Some io
      /\ closed io = false
      /\ s0 = set_iostream (Some io') s
      /\ consumed io io' got
      /\ calls io' = calls io ++ [CallRead n]
      /\ got = (if n <? 0 then Stream.remaining io
                else firstn (Z.to_nat n) (Stream.remaining io)).
Proof.
  intros n s got s0 H. unfold iostream_read, on_iostream in H.
  destruct (_iostream s) as [io|]; [|discriminate H].
  destruct (Stream.read n io) as [r io'] eqn:Hread.
  injection H as -> <-.
  destruct (read_returns_consumed n io got io' Hread) as (Hc & Hcons & Hcalls & Hgot).
  exists io, io'. auto 10.
Qed.

Lemma gets_returns :
  forall {A} (f : MrcInterpreter -> A) s a s0,
    gets f s = (inr a, s0) -> a = f s /\ s0 = s.
Proof. intros A f s a s0 H. injection H as <- <-. auto. Qed.

Lemma lift_returns :
  forall {A} (r : exn + A) s a s0, lift r s = (inr a, s0) -> r = inr a /\ s0 = s.
Proof.
  intros A [e|x] s a s0 H; [discriminate H|]. injection H as <- <-. auto.
Qed.

(** ** What a raising call leaves behind *)

Lemma same_regions_refl : forall s, same_regions s s.
Proof. intros s. repeat split. Qed.

Lemma same_regions_trans :
  forall x y z, same_regions x y -> same_regions y z -> same_regions x z.
Proof.
  unfold same_regions. intros x y z (H1 & H2 & H3) (H4 & H5 & H6).
  repeat split; congruence.
Qed.

Lemma regions_on_iostream :
  forall {A} name (f : iostream -> (exn + A) * iostream),
    always same_regions (on_iostream name f).
Proof.
  intros A name f [h e d ro p [io|] w]; unfold on_iostream, same_regions; simpl;
    [|auto].
  destruct (f io) as [r io']. simpl. auto.
Qed.

Lemma regions_warn : forall msg, always same_regions (warn msg).
Proof. intros msg s. repeat split. Qed.

Lemma on_raise_bind :
  forall {A B} (R : MrcInterpreter -> MrcInterpreter -> Prop)
         (m : M A) (k : A -> M B),
    (forall x y z, R x y -> R y z -> R x z) ->
    always R m -> (forall a, on_raise R (k a)) -> on_raise R (bind m k).
Proof.
  intros A B R m k Htrans Hm Hk s e s' H. unfold bind in H.
  specialize (Hm s). destruct (m s) as [[x|a] s1]; simpl in Hm.
  - injection H as <- <-. assumption.
  - exact (Htrans _ _ _ Hm (Hk a s1 e s' H)).
Qed.

Lemma on_raise_bind_never :
  forall {A B} (R : MrcInterpreter -> MrcInterpreter -> Prop)
         (m : M A) (k : A -> M B),
    on_raise R m -> (forall a, never_raises (k a)) -> on_raise R (bind m k).
Proof.
  intros A B R m k Hm Hk s e s' H. unfold bind in H.
  destruct (m s) as [[x|a] s1] eqn:Hms.
  - injection H as <- <-. exact (Hm s x s1 Hms).
  - destruct (Hk a s1) as [b Hb]. rewrite H in Hb. discriminate Hb.
Qed.

Lemma on_raise_never :
  forall {A} (R : MrcInterpreter -> MrcInterpreter -> Prop) (m : M A),
    never_raises m -> on_raise R m.
Proof.
  intros A R m Hm s e s' H. destruct (Hm s) as [a Ha]. rewrite H in Ha.
  discriminate Ha.
Qed.

Lemma on_raise_unchanged :
  forall {A} (R : MrcInterpreter -> MrcInterpreter -> Prop) (m : M A),
    (forall s, R s s) -> (forall s, snd (m s) = s) -> on_raise R m.
Proof.
  intros A R m Hrefl Hm s e s' H. specialize (Hm s). rewrite H in Hm.
  simpl in Hm. subst s'. apply Hrefl.
Qed.

Lemma never_ret : forall {A} (a : A), never_raises (ret a).
Proof. intros A a s. exists a. reflexivity. Qed.

Lemma never_gets : forall {A} (f : MrcInterpreter -> A), never_raises (gets f).
Proof. intros A f s. exists (f s). reflexivity. Qed.

Lemma never_modify : forall f, never_raises (modify f).
Proof. intros f s. exists tt. reflexivity. Qed.

Lemma never_warn : forall msg, never_raises (warn msg).
Proof. intros msg s. exists tt. reflexivity. Qed.

Lemma never_bind :
  forall {A B} (m : M A) (k : A -> M B),
    never_raises m -> (forall a, never_raises (k a)) -> never_raises (bind m k).
Proof.
  intros A B m k Hm Hk s. unfold bind. destruct (Hm s) as [a Ha].
  destruct (m s) as [[e|a'] s1]; simpl in Ha; [discriminate|].
  apply Hk.
Qed.

Lemma never_try_pass : forall m, never_raises (try_pass m).
Proof.
  intros m s. exists tt. unfold try_pass. destruct (m s) as [[e|[]] s1]; reflexivity.
Qed.

Create HintDb never.

#[local] Hint Resolve never_ret never_gets never_modify never_warn : never.

Ltac never_tac :=
  repeat (apply never_bind; [|intros]); auto with never.

Ltac regions_always :=
  repeat match goal with
         | |- always _ (bind _ _) =>
             apply always_bind; [exact same_regions_trans| |intros]
         | |- always _ (match ?x with _ => _ end) => destruct x
         | |- always _ (if ?b then _ else _) => destruct b
         | |- always _ (on_iostream _ _) => apply regions_on_iostream
         | |- always _ (warn _) => apply regions_warn
         | |- always _ _ => unchanged same_regions_refl
         end.

Ltac regions_step :=
  match goal with
  | |- on_raise _ _ => apply on_raise_never; solve [never_tac]
  | |- on_raise _ (bind _ _) =>
      apply on_raise_bind; [exact same_regions_trans|solve [regions_always]|intros]
  | |- on_raise _ (match ?x with _ => _ end) => destruct x
  | |- on_raise _ (if ?b then _ else _) => destruct b
  | |- on_raise _ _ =>
      apply on_raise_unchanged;
      [exact same_regions_refl
      |first [apply raise_unchanged | apply lift_unchanged]]
  end.

Section FurtherProperties.

Context {HD : HeaderDtype} {CS : Constants} {UT : Utils} {NP : Platform}.

Lemma bytes_read_header : always same_stream_bytes _read_header.
Proof. unfold _read_header. repeat bytes_step. Qed.

Lemma bytes_read_extended_header : always same_stream_bytes _read_extended_header.
Proof. unfold _read_extended_header, header_attr, header_property. repeat bytes_step. Qed.

Lemma bytes_read_data : always same_stream_bytes _read_data.
Proof. unfold _read_data, header_property. repeat bytes_step. Qed.

(** X1: reading never changes the bytes of the stream nor closes it,
    whether it returns or raises, in strict and in permissive mode; this
    holds for [_read] and for each of its three stages. *)
Theorem reading_leaves_stream_bytes :
  forall s,
    stream_bytes (snd (_read s)) = stream_bytes s
    /\ stream_bytes (snd (_read_header s)) = stream_bytes s
    /\ stream_bytes (snd (_read_extended_header s)) = stream_bytes s
    /\ stream_bytes (snd (_read_data s)) = stream_bytes s.
Proof.
  assert (Hread : always same_stream_bytes _read).
  { unfold _read. repeat bytes_step;
      auto using bytes_read_header, bytes_read_extended_header, bytes_read_data. }
  intros s. split; [apply Hread|]. split; [apply bytes_read_header|].
  split; [apply bytes_read_extended_header|apply bytes_read_data].
Qed.

(** ** Strict mode *)

Lemma silent_read_header : silent _read_header.
Proof. unfold _read_header, iostream_read. repeat silent_step. Qed.

Lemma silent_read_extended_header : silent _read_extended_header.
Proof.
  unfold _read_extended_header, header_attr, header_property, iostream_read,
    iostream_attr.
  repeat silent_step.
Qed.

Lemma silent_read_data : silent _read_data.
Proof. unfold _read_data, header_property, iostream_read. repeat silent_step. Qed.

Lemma silent_flush : silent flush.
Proof.
  unfold flush, header_property, extended_header_property, data_property,
    iostream_seek, iostream_write, iostream_truncate, iostream_flush.
  repeat silent_step.
Qed.

Lemma silent_close : silent close.
Proof.
  unfold close, _close_data, iostream_closed.
  repeat silent_step; auto using silent_flush with silent.
Qed.

Lemma silent_perform : forall o, silent (perform o).
Proof.
  destruct o; simpl; unfold _read, __enter__, __exit__, __del__;
    repeat silent_step;
    auto using silent_read_header, silent_read_extended_header, silent_read_data,
      silent_flush, silent_close with silent.
Qed.

(** X2: on a strict object no sequence of operations emits a warning:
    every [warnings.warn] of the module sits in a permissive branch. *)
Theorem strict_mode_never_warns :
  forall (ops : list operation) (s : MrcInterpreter),
    _permissive s = false ->
    warnings (perform_all ops s) = warnings s.
Proof.
  induction ops as [|o ops IH]; intros s Hp; simpl; [reflexivity|].
  destruct (silent_perform o s Hp) as [Hp1 Hw1].
  rewrite (IH _ Hp1). exact Hw1.
Qed.

(** ** Calls that raise *)

Lemma raise_read_header : on_raise same_regions _read_header.
Proof. unfold _read_header, iostream_read. repeat regions_step. Qed.

Lemma raise_read_extended_header : on_raise same_regions _read_extended_header.
Proof.
  unfold _read_extended_header, header_attr, header_property, iostream_read,
    iostream_attr.
  repeat regions_step.
Qed.

Lemma raise_read_data : on_raise same_regions _read_data.
Proof. unfold _read_data, header_property, iostream_read. repeat regions_step. Qed.

Lemma raise_flush : on_raise same_regions flush.
Proof.
  intros s e s' H. pose proof (flush_frame s) as (H1 & H2 & H3 & _).
  rewrite H in H1, H2, H3. repeat split; assumption.
Qed.

Lemma raise_close : on_raise same_regions close.
Proof.
  unfold close. apply on_raise_bind;
    [exact same_regions_trans|unchanged same_regions_refl|intros h].
  apply on_raise_bind_never; [|intros; unfold _close_data; never_tac].
  destruct h as [h|]; [|apply on_raise_never; never_tac].
  apply on_raise_bind;
    [exact same_regions_trans|apply regions_on_iostream|intros c].
  destruct c; cbn [negb]; [apply on_raise_never; never_tac|apply raise_flush].
Qed.

(** X3: when [_read_header], [_read_extended_header], [_read_data],
    [flush] or [close] raises, the header, the extended header and the data
    of the object are exactly as they were before that call: a stage of
    reading assigns its region only after every step of it that can raise,
    [flush()] assigns nothing, and [close()] releases the regions only
    after a successful flush.  (Not so for [_read] as a whole, whose later
    stages can raise after an earlier one has assigned its region.) *)
Theorem raising_call_changes_no_region :
  forall s err s',
    (_read_header s = (inl err, s') -> same_regions s s')
    /\ (_read_extended_header s = (inl err, s') -> same_regions s s')
    /\ (_read_data s = (inl err, s') -> same_regions s s')
    /\ (flush s = (inl err, s') -> same_regions s s')
    /\ (close s = (inl err, s') -> same_regions s s').
Proof.
  intros s err s'.
  split; [apply raise_read_header|].
  split; [apply raise_read_extended_header|].
  split; [apply raise_read_data|].
  split; [apply raise_flush|apply raise_close].
Qed.

(** X4: the finaliser [__del__] never raises.  When the [close()] it wraps
    would return, the regions are released; when that [close()] would
    raise, the error is swallowed and the object keeps its header, extended
    header and data. *)
Theorem del_swallows_errors :
  forall s,
    fst (__del__ s) = inr tt
    /\ (fst (close s) = inr tt ->
        _header (snd (__del__ s)) = None
        /\ _extended_header (snd (__del__ s)) = None
        /\ _data (snd (__del__ s)) = None)
    /\ (forall err, fst (close s) = inl err -> same_regions s (snd (__del__ s))).
Proof.
  intros s. unfold __del__, try_pass.
  destruct (close s) as [[e|[]] s1] eqn:Hclose; simpl.
  - split; [reflexivity|]. split; [discriminate|].
    intros err _. exact (raise_close s e s1 Hclose).
  - split; [reflexivity|]. split; [|discriminate].
    intros _. destruct (close_released s s1 Hclose) as [s0 ->]. auto.
Qed.

(** ** Closing and flushing *)

(** X5: [close()] does not touch the stream when the header is null or the
    stream is already closed: it returns normally and releases the three
    regions without a flush, on writable objects too. *)
Theorem close_skips_flush :
  forall s,
    (_header s = None \/ exists io, _iostream s = Some io /\ closed io = true) ->
    close s = (inr tt, released s)
    /\ _iostream (snd (close s)) = _iostream s.
Proof.
  intros s H.
  assert (Hc : close s = (inr tt, released s)).
  { unfold close, bind, gets, iostream_closed, on_iostream.
    destruct (_header s) as [h|] eqn:Hh; [|reflexivity].
    destruct H as [H|[io [Hio Hc]]]; [discriminate|].
    rewrite Hio, (set_iostream_same s io Hio), Hc. reflexivity. }
  rewrite Hc. split; reflexivity.
Qed.

(** X6: on a writable object that holds all three regions over an open
    stream, [close()] (and so [__exit__]) writes them back as [flush()]
    does and then releases them: the stream holds exactly header, extended
    header and data, and the object holds nothing. *)
Theorem close_writes_and_releases :
  forall s h e d io,
    _read_only s = false ->
    _header s = Some h ->
    _extended_header s = Some e ->
    _data s = Some d ->
    _iostream s = Some io ->
    closed io = false ->
    exists s',
      close s = (inr tt, s')
      /\ __exit__ s = (inr tt, s')
      /\ stream_content s' = header_bytes h ++ array_bytes e ++ array_bytes d
      /\ stream_calls s' =
           stream_calls s ++
             [CallSeek 0; CallWrite (PyBuffer (header_bytes h));
              CallWrite (PyBuffer (array_bytes e));
              CallWrite (PyBuffer (array_bytes d));
              CallTruncate; CallFlush]
      /\ _header s' = None
      /\ _extended_header s' = None
      /\ _data s' = None.
Proof.
  intros s h e d io Hro Hh He Hd Hio Hc.
  assert (Hclose : exists s', close s = (inr tt, released s')
                              /\ flush s = (inr tt, s')).
  { unfold close, bind, gets, iostream_closed, on_iostream.
    rewrite Hh, Hio, (set_iostream_same s io Hio), Hc. cbn [negb].
    rewrite (flush_writable s h e d io Hro Hh He Hd Hio Hc).
    eexists. split; reflexivity. }
  destruct Hclose as (s1 & Hclose & Hflush).
  rewrite (flush_writable s h e d io Hro Hh He Hd Hio Hc) in Hflush.
  injection Hflush as <-.
  exists (released
            (set_iostream
               (Some (mk_iostream
                        (header_bytes h ++ array_bytes e ++ array_bytes d)
                        (length (header_bytes h) + length (array_bytes e)
                         + length (array_bytes d))
                        false
                        (calls io ++
                           [CallSeek 0; CallWrite (PyBuffer (header_bytes h));
                            CallWrite (PyBuffer (array_bytes e));
                            CallWrite (PyBuffer (array_bytes d));
                            CallTruncate; CallFlush]))) s)).
  split; [exact Hclose|]. split; [exact Hclose|].
  unfold stream_content, stream_calls. rewrite Hio. simpl. auto.
Qed.

(** X7: [flush()] is idempotent on the bytes: a second [flush()] right
    after the first returns normally and leaves the same content and
    position in the stream. *)
Theorem flush_twice_same_bytes :
  forall s h e d io,
    _read_only s = false ->
    _header s = Some h ->
    _extended_header s = Some e ->
    _data s = Some d ->
    _iostream s = Some io ->
    closed io = false ->
    exists s1 s2,
      flush s = (inr tt, s1)
      /\ flush s1 = (inr tt, s2)
      /\ stream_bytes s2 = stream_bytes s1
      /\ option_map position (_iostream s2) = option_map position (_iostream s1).
Proof.
  intros s h e d io Hro Hh He Hd Hio Hc.
  pose proof (flush_writable s h e d io Hro Hh He Hd Hio Hc) as H1.
  match type of H1 with
  | _ = (_, set_iostream (Some ?io1) _) =>
      pose proof (flush_writable (set_iostream (Some io1) s) h e d io1
                    Hro Hh He Hd eq_refl eq_refl) as H2
  end.
  eexists. eexists. split; [exact H1|]. split; [exact H2|].
  split; reflexivity.
Qed.

(** ** What a call that returns has done *)

Lemma read_header_returns :
  forall s s',
    _read_header s = (inr tt, s') ->
    exists io io' hb order,
      _iostream s = Some io
      /\ closed io = false
      /\ _iostream s' = Some io'
      /\ consumed io io' hb
      /\ length hb = HEADER_DTYPE_itemsize
      /\ _header s' = Some (mk_header hb order (negb (_read_only s)))
      /\ _extended_header s' = _extended_header s
      /\ _data s' = _data s
      /\ _read_only s' = _read_only s
      /\ _permissive s' = _permissive s
      /\ order = match byte_order_from_machine_stamp (field_machst hb) with
                 | inr o => o
                 | inl _ => LittleEndian
                 end.
Proof.
  intros s s' H. unfold _read_header in H.
  apply bind_returns in H. destruct H as (hs & s0 & Hread & H).
  apply iostream_read_returns in Hread.
  destruct Hread as (io & io' & Hio & Hc & -> & Hcons & _ & Hgot).
  rewrite header_size_not_negative, Nat2Z.id in Hgot.
  destruct (length hs <? HEADER_DTYPE_itemsize)%nat eqn:Hlen; [discriminate H|].
  assert (Hfull : length hs = HEADER_DTYPE_itemsize).
  { apply Nat.ltb_ge in Hlen. pose proof (firstn_le_length HEADER_DTYPE_itemsize
      (Stream.remaining io)) as Hle. rewrite <- Hgot in Hle. lia. }
  clear Hlen Hgot.
  unfold bind, gets, warn, modify, ret, raise in H. cbv beta iota in H.
  cbn [_permissive _read_only set_iostream] in H.
  exists io, io', hs.
  destruct (negb (bytes_eqb (field_map hs) MAP_ID));
    destruct (_permissive s) eqn:Hp;
    destruct (byte_order_from_machine_stamp (field_machst hs)) as [[err|err|err|err|err]|order];
    cbn in H; try discriminate H; injection H as <-; eexists; cbn;
    repeat match goal with |- _ /\ _ => split end; auto.
Qed.



Lemma read_extended_header_returns :
  forall s s',
    _read_extended_header s = (inr tt, s') ->
    exists h io io' eb,
      _header s = Some h
      /\ _iostream s = Some io
      /\ closed io = false
      /\ _iostream s' = Some io'
      /\ consumed io io' eb
      /\ _extended_header s' =
           Some (mk_ndarray eb V1 [Z.of_nat (length eb)] (negb (_read_only s)))
      /\ _header s' = _header s
      /\ _data s' = _data s
      /\ _read_only s' = _read_only s
      /\ _permissive s' = _permissive s.
Proof.
  intros s s' H. unfold _read_extended_header, header_attr, header_property in H.
  apply bind_returns in H. destruct H as ([] & s0 & Hlook & H).
  assert (s0 = s) as ->.
  { unfold iostream_attr, on_iostream in Hlook.
    destruct (_iostream s) as [io|] eqn:Hio; [|discriminate Hlook].
    injection Hlook as <-. apply set_iostream_same. assumption. }
  clear Hlook.
  apply bind_returns in H. destruct H as (h & s0 & Hattr & H).
  apply bind_returns in Hattr. destruct Hattr as (oh & s1 & Hget & Hattr).
  apply gets_returns in Hget. destruct Hget as [-> ->].
  destruct (_header s) as [h0|] eqn:Hh; [|discriminate Hattr].
  injection Hattr as <- <-.
  apply bind_returns in H. destruct H as (eb & s2 & Hread & H).
  apply iostream_read_returns in Hread.
  destruct Hread as (io & io' & Hio & Hc & -> & Hcons & _ & _).
  unfold bind, gets, modify in H. cbn in H. injection H as <-.
  exists h0, io, io', eb. cbn.
  repeat match goal with |- _ /\ _ => split end; auto.
Qed.

Lemma frombuffer_returns :
  forall buf dt a,
    Np.frombuffer buf dt = inr a -> array_bytes a = buf /\ array_dtype a = dt.
Proof.
  intros buf dt a H. unfold Np.frombuffer in H.
  destruct (itemsize dt <=? 0); [discriminate H|].
  destruct (Z.of_nat (length buf) mod itemsize dt =? 0); [|discriminate H].
  injection H as <-. auto.
Qed.

Lemma reshape_returns :
  forall a shape a',
    Np.reshape a shape = inr a' ->
    array_bytes a' = array_bytes a /\ array_dtype a' = array_dtype a.
Proof.
  intros a shape a' H. unfold Np.reshape in H.
  repeat match type of H with
         | (if ?b then _ else _) = _ => destruct b
         end; try discriminate H; injection H as <-; auto.
Qed.

Lemma read_data_returns :
  forall s s',
    _read_data s = (inr tt, s') ->
    _header s' = _header s
    /\ _extended_header s' = _extended_header s
    /\ _read_only s' = _read_only s
    /\ (_data s' = None
        \/ exists io io' db dt shape,
             _iostream s = Some io
             /\ closed io = false
             /\ _iostream s' = Some io'
             /\ consumed io io' db
             /\ _data s' = Some (mk_ndarray db dt shape (negb (_read_only s)))).
Proof.
  intros s s' H. unfold _read_data, header_property in H.
  apply bind_returns in H. destruct H as (oh & s0 & Hget & H).
  apply gets_returns in Hget. destruct Hget as [-> ->].
  apply bind_returns in H. destruct H as (p & s0 & Hget & H).
  apply gets_returns in Hget. destruct Hget as [-> ->].
  destruct (match _header s with
            | Some h => data_dtype_from_header h
            | None => inl (AttributeError "'NoneType' object has no attribute 'mode'")
            end) as [[err|err|err|err|err]|dt]; try discriminate H.
  - destruct (_permissive s); [|discriminate H].
    unfold bind, warn, modify in H. cbn in H. injection H as <-. cbn. auto.
  - apply bind_returns in H. destruct H as (oh & s0 & Hget & H).
    apply gets_returns in Hget. destruct Hget as [-> ->].
    apply bind_returns in H. destruct H as (shape & s0 & Hshape & H).
    apply lift_returns in Hshape. destruct Hshape as [_ ->].
    cbv zeta in H.
    apply bind_returns in H. destruct H as (db & s1 & Hread & H).
    apply iostream_read_returns in Hread.
    destruct Hread as (io & io' & Hio & Hc & -> & Hcons & _ & _).
    destruct (Z.of_nat (length db) <? fold_left Z.mul shape (itemsize dt)).
    + destruct (_permissive s); [|discriminate H].
      unfold bind, warn, modify in H. cbn in H. injection H as <-. cbn. auto.
    + apply bind_returns in H. destruct H as (flat & s2 & Hflat & H).
      apply lift_returns in Hflat. destruct Hflat as [Hflat ->].
      apply bind_returns in H. destruct H as (arr & s2 & Harr & H).
      apply lift_returns in Harr. destruct Harr as [Harr ->].
      unfold bind, gets, modify in H. cbn in H. injection H as <-. cbn.
      destruct (frombuffer_returns _ _ _ Hflat) as [Hb Hd].
      destruct (reshape_returns _ _ _ Harr) as [Hb' Hd'].
      split; [reflexivity|]. split; [reflexivity|]. split; [reflexivity|].
      right. exists io, io', db, dt, (array_shape arr).
      repeat match goal with |- _ /\ _ => split end; auto.
      destruct arr as [ab ad ash aw]. cbn in *. unfold Np.set_writeable. cbn.
      congruence.
Qed.

Lemma read_returns :
  forall s s',
    _read s = (inr tt, s') ->
    exists io io2 hb order eb,
      _iostream s = Some io
      /\ closed io = false
      /\ length hb = HEADER_DTYPE_itemsize
      /\ consumed io io2 (hb ++ eb)
      /\ _header s' = Some (mk_header hb order (negb (_read_only s)))
      /\ _extended_header s' =
           Some (mk_ndarray eb V1 [Z.of_nat (length eb)] (negb (_read_only s)))
      /\ _read_only s' = _read_only s
      /\ (_data s' = None
          \/ exists io3 db dt shape,
               _iostream s' = Some io3
               /\ consumed io2 io3 db
               /\ _data s' = Some (mk_ndarray db dt shape (negb (_read_only s)))).
Proof.
  intros s s' H. unfold _read in H.
  apply bind_returns in H. destruct H as ([] & s1 & H1 & H).
  apply bind_returns in H. destruct H as ([] & s2 & H2 & H3).
  apply read_header_returns in H1.
  destruct H1 as (io & io1 & hb & order & Hio & Hc & Hio1 & C1 & Hlen & Hh1 & He1
                  & Hd1 & Hro1 & Hp1 & _).
  apply read_extended_header_returns in H2.
  destruct H2 as (h & io1' & io2 & eb & Hh & Hio1' & Hc1 & Hio2 & C2 & He2 & Hh2
                  & Hd2 & Hro2 & Hp2).
  rewrite Hio1 in Hio1'. injection Hio1' as <-.
  apply read_data_returns in H3. destruct H3 as (Hh3 & He3 & Hro3 & Hd3).
  exists io, io2, hb, order, eb.
  split; [assumption|]. split; [assumption|]. split; [assumption|].
  split; [exact (consumed_trans _ _ _ _ _ C1 C2)|].
  split; [congruence|]. split; [rewrite He3, He2, Hro1; reflexivity|].
  split; [congruence|].
  destruct Hd3 as [Hnone|(io2' & io3 & db & dt & shape & Hio2' & _ & Hio3 & C3 & Hd)].
  - left. assumption.
  - right. rewrite Hio2 in Hio2'. injection Hio2' as <-.
    exists io3, db, dt, shape. rewrite Hro2, Hro1 in Hd. auto.
Qed.


(** ** What a successful read holds *)

(** X8: when [_read()] returns with the data present, the header, the
    extended header and the data are consecutive pieces of what the stream
    held from its starting position, the header being 1024 bytes; the stream
    has advanced by exactly their total length and its content is as
    before. *)
Theorem read_takes_consecutive_regions :
  forall s s' d,
    _read s = (inr tt, s') ->
    _data s' = Some d ->
    exists io io' h e,
      _iostream s = Some io
      /\ _iostream s' = Some io'
      /\ _header s' = Some h
      /\ _extended_header s' = Some e
      /\ length (header_bytes h) = HEADER_DTYPE_itemsize
      /\ Stream.remaining io =
           header_bytes h ++ array_bytes e ++ array_bytes d ++ Stream.remaining io'
      /\ position io' =
           (position io + length (header_bytes h) + length (array_bytes e)
            + length (array_bytes d))%nat
      /\ content io' = content io.
Proof.
  intros s s' d H Hd.
  destruct (read_returns s s' H)
    as (io & io2 & hb & order & eb & Hio & Hc & Hlen & C12 & Hh & He & Hro & Hdata).
  destruct Hdata as [Hnone|(io3 & db & dt & shape & Hio3 & C3 & Hd')]; [congruence|].
  rewrite Hd' in Hd. injection Hd as <-.
  destruct (consumed_trans _ _ _ _ _ C12 C3) as (Hcontent & _ & Hpos & Hrem).
  exists io, io3, (mk_header hb order (negb (_read_only s))),
    (mk_ndarray eb V1 [Z.of_nat (length eb)] (negb (_read_only s))).
  cbn [header_bytes array_bytes].
  repeat match goal with |- _ /\ _ => split end; auto.
  - rewrite Hrem, <- !app_assoc. reflexivity.
  - rewrite Hpos, !length_app. lia.
Qed.

(** X11: after a successful [_read()] the writeable flag of the header, of
    the extended header and of the data (when present) is the negation of
    the read-only flag, which reading does not change. *)
Theorem writeable_mirrors_read_only :
  forall s s',
    _read s = (inr tt, s') ->
    exists h e,
      _header s' = Some h
      /\ header_writeable h = negb (_read_only s)
      /\ _extended_header s' = Some e
      /\ array_writeable e = negb (_read_only s)
      /\ (forall d, _data s' = Some d -> array_writeable d = negb (_read_only s))
      /\ _read_only s' = _read_only s.
Proof.
  intros s s' H.
  destruct (read_returns s s' H)
    as (io & io2 & hb & order & eb & Hio & Hc & Hlen & C12 & Hh & He & Hro & Hdata).
  eexists. eexists. split; [exact Hh|]. split; [reflexivity|].
  split; [exact He|]. split; [reflexivity|]. split; [|exact Hro].
  intros d Hd.
  destruct Hdata as [Hnone|(io3 & db & dt & shape & Hio3 & C3 & Hd')]; [congruence|].
  rewrite Hd' in Hd. injection Hd as <-. reflexivity.
Qed.

(** X9: opening any stream on a writable object and flushing, when the
    open returned with the data present, leaves in the stream exactly the
    bytes that were read -- header, extended header and data -- and drops
    whatever followed them. *)
Theorem open_then_flush_keeps_what_was_read :
  forall io permissive s1 d,
    __init__ (Some io) permissive false = (inr tt, s1) ->
    _data s1 = Some d ->
    exists h e s2 trailing,
      _header s1 = Some h
      /\ _extended_header s1 = Some e
      /\ Stream.remaining io =
           (header_bytes h ++ array_bytes e ++ array_bytes d) ++ trailing
      /\ flush s1 = (inr tt, s2)
      /\ stream_content s2 = header_bytes h ++ array_bytes e ++ array_bytes d.
Proof.
  intros io permissive s1 d H Hd. unfold __init__ in H.
  destruct (read_returns _ s1 H)
    as (io0 & io2 & hb & order & eb & Hio & Hc & Hlen & C12 & Hh & He & Hro & Hdata).
  cbn in Hio. injection Hio as <-. cbn in Hro.
  destruct Hdata as [Hnone|(io3 & db & dt & shape & Hio3 & C3 & Hd')]; [congruence|].
  destruct (consumed_trans _ _ _ _ _ C12 C3) as (_ & Hclosed & _ & Hrem).
  assert (Hc3 : closed io3 = false) by congruence.
  pose proof (flush_writable s1 _ _ _ io3 Hro Hh He Hd Hio3 Hc3) as Hflush.
  rewrite Hd' in Hd. injection Hd as <-.
  eexists. eexists. eexists. exists (Stream.remaining io3).
  split; [exact Hh|]. split; [exact He|]. cbn [header_bytes array_bytes] in *.
  split; [rewrite Hrem, <- !app_assoc; reflexivity|].
  split; [exact Hflush|]. reflexivity.
Qed.

Lemma prod_not_negative :
  forall shape, Forall (fun d => 0 <= d) shape -> 0 <= Np.prod shape.
Proof.
  unfold Np.prod. intros shape H.
  assert (G : forall a, 0 <= a -> 0 <= fold_left Z.mul shape a).
  { induction H as [|d shape Hd _ IH]; intros a Ha; cbn [fold_left]; [assumption|].
    apply IH. apply Z.mul_nonneg_nonneg; assumption. }
  apply G. lia.
Qed.

(** X10: when the stream holds at least itemsize times the product of the
    shape bytes, a count that fits an index, [_read_data()] returns normally in either mode without a
    warning: the data is exactly that many bytes taken from the current
    position, under the derived dtype and shape, and the bytes that follow
    stay unread. *)
Theorem read_data_takes_exactly_nbytes :
  forall s h io dt shape,
    _header s = Some h ->
    _iostream s = Some io ->
    closed io = false ->
    data_dtype_from_header h = inr dt ->
    data_shape_from_header h = inr shape ->
    0 < itemsize dt ->
    Forall (fun d => 0 <= d) shape ->
    let nbytes := itemsize dt * Np.prod shape in
    nbytes <= Z.of_nat (length (Stream.remaining io)) ->
    nbytes <= PY_SSIZE_T_MAX ->
    exists s' db,
      _read_data s = (inr tt, s')
      /\ _data s' = Some (mk_ndarray db dt shape (negb (_read_only s)))
      /\ db = firstn (Z.to_nat nbytes) (Stream.remaining io)
      /\ Z.of_nat (length db) = nbytes
      /\ option_map position (_iostream s') = Some (position io + Z.to_nat nbytes)%nat
      /\ stream_calls s' = calls io ++ [CallRead nbytes]
      /\ warnings s' = warnings s.
Proof.
  intros s h io dt shape Hh Hio Hc Hdt Hshape Hitem Hpos nbytes Hle Hmax.
  assert (Hn : 0 <= nbytes).
  { unfold nbytes. pose proof (prod_not_negative shape Hpos). nia. }
  assert (Hfits : fits_index nbytes = true).
  { unfold fits_index, PY_SSIZE_T_MIN. change (2 ^ 63) with 9223372036854775808.
    apply andb_true_intro. split; apply Z.leb_le; lia. }
  set (db := firstn (Z.to_nat nbytes) (Stream.remaining io)).
  assert (Hlen : Z.of_nat (length db) = nbytes).
  { unfold db. rewrite firstn_length_le by lia. lia. }
  unfold _read_data, header_property, bind, gets.
  rewrite Hh, Hdt. cbv beta iota. rewrite Hh, Hshape.
  unfold lift at 1, ret at 1. cbv beta iota.
  rewrite fold_mul_prod. fold nbytes.
  rewrite (iostream_read_open nbytes s io Hfits Hio Hc).
  replace (nbytes <? 0) with false by (symmetry; apply Z.ltb_ge; lia).
  fold db. rewrite Hlen, Z.ltb_irrefl.
  destruct (frombuffer_reshape db dt shape Hitem Hpos Hlen) as [flat [Hfb Hrs]].
  rewrite Hfb. unfold lift at 1, ret at 1. cbv beta iota.
  rewrite Hrs. unfold lift, ret, modify. cbn.
  eexists. exists db. split; [reflexivity|]. cbn.
  unfold stream_calls. cbn.
  repeat match goal with |- _ /\ _ => split end; try reflexivity.
  - exact Hlen.
  - f_equal. lia.
Qed.

(** ** Permissive opening *)





End FurtherProperties.

(** * Worked examples on the MRC2014 collaborators *)

#[local] Existing Instance MRC2014.header_dtype.
#[local] Existing Instance MRC2014.constants.
#[local] Existing Instance MRC2014.utils.
#[local] Existing Instance MRC2014.platform.

(** Both byte orders: a little-endian file opened in strict mode and a
    big-endian file opened in permissive mode come back byte for byte, and
    the little-endian object flushed into a stream of other bytes produces
    the file there too. *)
Lemma C1_round_trip_witness :
  (length (MRC2014.example_header LittleEndian x02 x03) = HEADER_DTYPE_itemsize
   /\ stream_content
        (snd (flush (snd (__init__
                            (Some (Stream.of_bytes (MRC2014.example_file LittleEndian)))
                            false false))))
      = MRC2014.example_file LittleEndian
   /\ stream_content
        (snd (flush (set_iostream (Some (Stream.of_bytes [xff; xff; xff]))
                       (snd (__init__
                               (Some (Stream.of_bytes (MRC2014.example_file LittleEndian)))
                               false false)))))
      = MRC2014.example_file LittleEndian)
  /\ (length (MRC2014.example_header BigEndian x02 x03) = HEADER_DTYPE_itemsize
      /\ stream_content
           (snd (flush (snd (__init__
                               (Some (Stream.of_bytes (MRC2014.example_file BigEndian)))
                               true false))))
         = MRC2014.example_file BigEndian).
Proof.
  assert (Hshape : Forall (fun d => 0 <= d) [1; 1; 1]) by (repeat constructor; lia).
  assert (Hfit : forall order,
             Z.of_nat (length (MRC2014.one_and_a_half order)) <= PY_SSIZE_T_MAX)
    by (intros []; vm_compute; discriminate).
  split; (split; [reflexivity|]).
  - destruct (@C1_round_trip MRC2014.header_dtype MRC2014.constants MRC2014.utils
                MRC2014.platform
                (MRC2014.example_header LittleEndian x02 x03)
                MRC2014.example_ext (MRC2014.one_and_a_half LittleEndian)
                LittleEndian (mk_dtype "f4" 4) [1; 1; 1] false
                eq_refl eq_refl eq_refl eq_refl eq_refl eq_refl eq_refl Hshape eq_refl
                (Hfit LittleEndian))
      as (s1 & s2 & Hopen & _ & _ & _ & _ & Hflush & Hcontent & _ & Hother).
    unfold MRC2014.example_file. rewrite Hopen. cbn [snd].
    rewrite Hflush. split; [exact Hcontent|].
    exact (Hother (Stream.of_bytes [xff; xff; xff]) eq_refl).
  - destruct (@C1_round_trip MRC2014.header_dtype MRC2014.constants MRC2014.utils
                MRC2014.platform
                (MRC2014.example_header BigEndian x02 x03)
                MRC2014.example_ext (MRC2014.one_and_a_half BigEndian)
                BigEndian (mk_dtype "f4" 4) [1; 1; 1] true
                eq_refl eq_refl eq_refl eq_refl eq_refl eq_refl eq_refl Hshape eq_refl
                (Hfit BigEndian))
      as (s1 & s2 & Hopen & _ & _ & _ & _ & Hflush & Hcontent & _).
    unfold MRC2014.example_file. rewrite Hopen. cbn [snd].
    rewrite Hflush. exact Hcontent.
Defined.

(** A stream of 100 bytes, opened permissively. *)
Lemma C2_truncated_header_witness :
  (length (Stream.remaining
             (Stream.of_bytes (firstn 100 (MRC2014.example_file LittleEndian))))
   < HEADER_DTYPE_itemsize)%nat
  /\ fst (__init__ (Some (Stream.of_bytes (firstn 100 (MRC2014.example_file LittleEndian))))
            true false)
     = inl (ValueError "Couldn't read enough bytes for MRC header").
Proof.
  assert (H : (length (Stream.remaining
                         (Stream.of_bytes (firstn 100 (MRC2014.example_file LittleEndian))))
               < HEADER_DTYPE_itemsize)%nat).
  { vm_compute. repeat constructor. }
  split; [exact H|].
  exact (proj1 (C2_truncated_header_is_fatal
                  (Stream.of_bytes (firstn 100 (MRC2014.example_file LittleEndian)))
                  true false eq_refl H)).
Defined.

(** C3, as stated, fails: with neither the map identifier nor a recognised
    stamp, strict mode raises the map-identifier error, not the error of the
    machine stamp. *)
Lemma C3_strict_stamp_counterexample :
  MRC2014.byte_order_from_machine_stamp (field_machst MRC2014.blank_header)
  = inl (ValueError "Unrecognised machine stamp")
  /\ fst (_read_header strict_blank)
     = inl (ValueError "Map ID string not found - not an MRC file, or file is corrupt")
  /\ ~ strict_stamp_error_claim MRC2014.blank_header.
Proof.
  split; [reflexivity|]. split; [reflexivity|].
  intros H.
  specialize (H "Unrecognised machine stamp"%string strict_blank eq_refl eq_refl eq_refl).
  vm_compute in H. discriminate H.
Defined.

(** The blank header fails both checks; permissively it opens little-endian
    with one warning for each, and strictly it raises the first. *)
Lemma C3_header_checks_witness :
  (fst (_read_header permissive_blank) = inr tt
   /\ option_map header_order (_header (snd (_read_header permissive_blank)))
      = Some LittleEndian
   /\ warnings (snd (_read_header permissive_blank))
      = [RuntimeWarning map_id_msg; RuntimeWarning "Unrecognised machine stamp"])
  /\ fst (_read_header strict_blank) = inl (ValueError map_id_msg).
Proof.
  split.
  - destruct (@C3_header_checks MRC2014.header_dtype MRC2014.constants MRC2014.utils
                permissive_blank (Stream.of_bytes MRC2014.blank_header)
                eq_refl eq_refl (Nat.le_refl _))
      as (_ & _ & _ & Hboth).
    destruct (Hboth eq_refl "Unrecognised machine stamp"%string eq_refl)
      as (s' & Hrun & Hheader & Hwarn).
    rewrite Hrun. cbn [fst snd]. rewrite Hheader, Hwarn.
    split; [reflexivity|]. split; reflexivity.
  - destruct (@C3_header_checks MRC2014.header_dtype MRC2014.constants MRC2014.utils
                strict_blank (Stream.of_bytes MRC2014.blank_header)
                eq_refl eq_refl (Nat.le_refl _))
      as (Hmagic & _).
    exact (proj1 (Hmagic eq_refl eq_refl)).
Defined.

Lemma C4_unrecognised_mode_witness :
  _read_data (before_data false MRC2014.bad_mode_file)
  = (inl (ValueError "Unrecognised mode '3'"), before_data false MRC2014.bad_mode_file)
  /\ fst (_read_data (before_data true MRC2014.bad_mode_file)) = inr tt
  /\ _data (snd (_read_data (before_data true MRC2014.bad_mode_file))) = None
  /\ stream_calls (snd (_read_data (before_data true MRC2014.bad_mode_file)))
     = [CallRead 1024; CallRead 3].
Proof.
  split.
  - exact (proj1 (@C4_unrecognised_mode MRC2014.utils
                    (before_data false MRC2014.bad_mode_file)
                    (mk_header (MRC2014.example_header LittleEndian x03 x03)
                       LittleEndian true)
                    "Unrecognised mode '3'"%string eq_refl eq_refl)
                 eq_refl).
  - destruct (proj2 (@C4_unrecognised_mode MRC2014.utils
                       (before_data true MRC2014.bad_mode_file)
                       (mk_header (MRC2014.example_header LittleEndian x03 x03)
                          LittleEndian true)
                       "Unrecognised mode '3'"%string eq_refl eq_refl)
                    eq_refl)
      as (s' & Hrun & Hdata & _ & _ & _ & Hstream).
    rewrite Hrun. cbn [fst snd]. split; [reflexivity|]. split; [exact Hdata|].
    unfold stream_calls. rewrite Hstream. reflexivity.
Defined.



Lemma C6_read_only_witness :
  _read_only MRC2014.read_only_object = true
  /\ stream_calls
       (perform_all [OpFlush; OpRead; OpEnter; OpFlush; OpExit; OpClose; OpDel]
          MRC2014.read_only_object)
     = [CallRead 1024; CallRead 3; CallRead 4; CallRead 1024]
  /\ flush MRC2014.read_only_object = (inr tt, MRC2014.read_only_object).
Proof.
  split; [reflexivity|].
  destruct (@C6_read_only_never_writes MRC2014.header_dtype MRC2014.constants
              MRC2014.utils MRC2014.platform
              [OpFlush; OpRead; OpEnter; OpFlush; OpExit; OpClose; OpDel]
              MRC2014.read_only_object eq_refl)
    as (_ & Hflush & _).
  split; [reflexivity|exact Hflush].
Defined.

(** The writable object over the valid file followed by two trailing bytes:
    after [flush()] the stream holds the valid file only.  The object
    opened permissively over the file of unknown mode, whose data is
    absent: its [flush()] issues the same six calls. *)
Lemma C7_flush_sequence_witness :
  length (stream_content MRC2014.writable_object) = 1033%nat
  /\ fst (flush MRC2014.writable_object) = inr tt
  /\ stream_content (snd (flush MRC2014.writable_object))
     = MRC2014.example_file LittleEndian
  /\ exists s',
       flush MRC2014.degraded_object = (inr tt, s')
       /\ stream_calls s' =
            [CallRead 1024; CallRead 3; CallSeek 0;
             CallWrite (PyBuffer (MRC2014.example_header LittleEndian x03 x03));
             CallWrite (PyBuffer MRC2014.example_ext);
             CallWrite (PyBuffer none_array_bytes);
             CallTruncate; CallFlush].
Proof.
  split; [reflexivity|].
  destruct (C7_flush_sequence MRC2014.writable_object
              (mk_header (MRC2014.example_header LittleEndian x02 x03) LittleEndian true)
              (mk_ndarray MRC2014.example_ext V1 [3] true)
              (mk_iostream (MRC2014.example_file LittleEndian ++ [xff; xff]) 1031 false
                 [CallRead 1024; CallRead 3; CallRead 4])
              eq_refl eq_refl eq_refl eq_refl eq_refl)
    as (s' & Hrun & _ & Hcontent & Hdata & _).
  destruct (C7_flush_sequence MRC2014.degraded_object
              (mk_header (MRC2014.example_header LittleEndian x03 x03) LittleEndian true)
              (mk_ndarray MRC2014.example_ext V1 [3] true)
              (mk_iostream MRC2014.bad_mode_file 1027 false [CallRead 1024; CallRead 3])
              eq_refl eq_refl eq_refl eq_refl eq_refl)
    as (s2 & Hrun2 & Hcalls2 & _).
  rewrite Hrun. cbn [fst snd]. split; [reflexivity|]. split.
  - rewrite Hcontent.
    rewrite (Hdata (mk_ndarray (MRC2014.one_and_a_half LittleEndian) (mk_dtype "f4" 4)
                      [1; 1; 1] true) eq_refl).
    reflexivity.
  - exists s2. split; [exact Hrun2|]. rewrite Hcalls2. reflexivity.
Defined.

(** C8, as stated, fails: on an object that has decoded its header only,
    the first [close()] raises while flushing (there is no extended header
    to write) and releases nothing, so the second [close()] flushes and
    raises again. *)
Lemma C8_close_twice_counterexample :
  fst (close (header_only false))
  = inl (TypeError "a bytes-like object is required, not 'NoneType'")
  /\ fst (close (snd (close (header_only false))))
     = inl (TypeError "a bytes-like object is required, not 'NoneType'")
  /\ ~ close_twice_claim (header_only false).
Proof.
  split; [vm_compute; reflexivity|]. split; [vm_compute; reflexivity|].
  unfold close_twice_claim. intros [H _].
  vm_compute in H. discriminate H.
Defined.

Lemma C8_second_close_witness :
  fst (close MRC2014.writable_object) = inr tt
  /\ close (snd (close MRC2014.writable_object))
     = (inr tt, snd (close MRC2014.writable_object))
  /\ fst (close MRC2014.read_only_object) = inr tt
  /\ close (snd (close MRC2014.read_only_object))
     = (inr tt, snd (close MRC2014.read_only_object)).
Proof.
  assert (Hw : close MRC2014.writable_object
               = (inr tt, snd (close MRC2014.writable_object)))
    by (vm_compute; reflexivity).
  assert (Hr : close MRC2014.read_only_object
               = (inr tt, snd (close MRC2014.read_only_object)))
    by (vm_compute; reflexivity).
  split; [rewrite Hw; reflexivity|]. split.
  - exact (proj1 (C8_second_close_is_a_no_op MRC2014.writable_object
                    (snd (close MRC2014.writable_object)) Hw)).
  - split; [rewrite Hr; reflexivity|].
    exact (proj1 (C8_second_close_is_a_no_op MRC2014.read_only_object
                    (snd (close MRC2014.read_only_object)) Hr)).
Defined.

(** A header that declares three bytes of extended header over a stream
    that holds only two more: the two bytes are taken without complaint. *)
Lemma C9_extended_header_witness :
  fst (_read_extended_header (header_only true)) = inr tt
  /\ option_map array_bytes (_extended_header (snd (_read_extended_header (header_only true))))
     = Some [x65; x78]
  /\ warnings (snd (_read_extended_header (header_only true))) = []
  /\ fst (_read_extended_header (header_only false)) = inr tt.
Proof.
  destruct (@C9_extended_header_read MRC2014.header_dtype (header_only true)
              (mk_header (MRC2014.example_header LittleEndian x02 x03) LittleEndian true)
              (mk_iostream (firstn 1026 (MRC2014.example_file LittleEndian)) 1024 false
                 [CallRead 1024])
              eq_refl eq_refl eq_refl)
    as (e & s' & Hrun & Hext & Hwarn & _ & _ & _ & _ & Hshort).
  destruct (@C9_extended_header_read MRC2014.header_dtype (header_only false)
              (mk_header (MRC2014.example_header LittleEndian x02 x03) LittleEndian true)
              (mk_iostream (firstn 1026 (MRC2014.example_file LittleEndian)) 1024 false
                 [CallRead 1024])
              eq_refl eq_refl eq_refl)
    as (e2 & s2 & Hrun2 & _).
  rewrite Hrun, Hrun2. cbn [fst snd]. rewrite Hext, Hwarn. cbn [option_map].
  rewrite Hshort by (vm_compute; reflexivity).
  split; [reflexivity|]. split; [reflexivity|]. split; reflexivity.
Defined.

(** C10, as stated, fails: on the object opened permissively over the file
    of unknown mode, writable and without data, [flush()] returns. *)
Lemma C10_flush_returns_counterexample :
  _read_only MRC2014.degraded_object = false
  /\ _data MRC2014.degraded_object = None
  /\ fst (flush MRC2014.degraded_object) = inr tt
  /\ ~ flush_fails_claim MRC2014.degraded_object.
Proof.
  split; [reflexivity|]. split; [reflexivity|]. split; [vm_compute; reflexivity|].
  intros H. destruct (H eq_refl eq_refl) as [err Herr].
  vm_compute in Herr. discriminate Herr.
Defined.

Lemma C10_flush_without_data_witness :
  exists s',
    flush MRC2014.degraded_object = (inr tt, s')
    /\ stream_content s'
       = MRC2014.example_header LittleEndian x03 x03 ++ MRC2014.example_ext
           ++ none_array_bytes
    /\ close MRC2014.degraded_object = (inr tt, released s').
Proof.
  destruct (C10_flush_without_data_writes_object_array MRC2014.degraded_object
              (mk_header (MRC2014.example_header LittleEndian x03 x03) LittleEndian true)
              (mk_ndarray MRC2014.example_ext V1 [3] true)
              (mk_iostream MRC2014.bad_mode_file 1027 false [CallRead 1024; CallRead 3])
              eq_refl eq_refl eq_refl eq_refl eq_refl eq_refl)
    as (s' & Hflush & _ & Hcontent & Hclose).
  exists s'. split; [exact Hflush|]. split; [exact Hcontent|exact Hclose].
Defined.

(** * Worked examples for the further properties *)

Lemma strict_mode_never_warns_witness :
  _permissive strict_blank = false
  /\ fst (_read strict_blank) = inl (ValueError map_id_msg)
  /\ warnings (perform_all [OpRead; OpReadData; OpFlush; OpClose; OpDel] strict_blank) = [].
Proof.
  split; [reflexivity|]. split; [vm_compute; reflexivity|].
  exact (@strict_mode_never_warns MRC2014.header_dtype MRC2014.constants MRC2014.utils
           MRC2014.platform
           [OpRead; OpReadData; OpFlush; OpClose; OpDel] strict_blank eq_refl).
Defined.

(** Header decoding that raises on the blank header, and [close()] that
    raises on the object that has decoded its header only. *)
Lemma raising_call_witness :
  fst (_read_header strict_blank) = inl (ValueError map_id_msg)
  /\ same_regions strict_blank (snd (_read_header strict_blank))
  /\ fst (close (header_only false))
     = inl (TypeError "a bytes-like object is required, not 'NoneType'")
  /\ same_regions (header_only false) (snd (close (header_only false))).
Proof.
  assert (H1 : _read_header strict_blank
               = (inl (ValueError map_id_msg), snd (_read_header strict_blank)))
    by (vm_compute; reflexivity).
  assert (H2 : close (header_only false)
               = (inl (TypeError "a bytes-like object is required, not 'NoneType'"),
                  snd (close (header_only false))))
    by (vm_compute; reflexivity).
  split; [rewrite H1; reflexivity|]. split; [|split; [rewrite H2; reflexivity|]].
  - destruct (@raising_call_changes_no_region MRC2014.header_dtype MRC2014.constants
                MRC2014.utils MRC2014.platform strict_blank (ValueError map_id_msg)
                (snd (_read_header strict_blank))) as (Hheader & _).
    exact (Hheader H1).
  - destruct (@raising_call_changes_no_region MRC2014.header_dtype MRC2014.constants
                MRC2014.utils MRC2014.platform (header_only false)
                (TypeError "a bytes-like object is required, not 'NoneType'")
                (snd (close (header_only false)))) as (_ & _ & _ & _ & Hclose).
    exact (Hclose H2).
Defined.

(** The finaliser on the object that has decoded its header only, whose
    [close()] raises, and on the writable object, whose [close()] returns. *)
Lemma del_swallows_errors_witness :
  fst (close (header_only false))
  = inl (TypeError "a bytes-like object is required, not 'NoneType'")
  /\ fst (__del__ (header_only false)) = inr tt
  /\ same_regions (header_only false) (snd (__del__ (header_only false)))
  /\ _header (snd (__del__ MRC2014.writable_object)) = None.
Proof.
  assert (H1 : fst (close (header_only false))
               = inl (TypeError "a bytes-like object is required, not 'NoneType'"))
    by (vm_compute; reflexivity).
  assert (H2 : fst (close MRC2014.writable_object) = inr tt)
    by (vm_compute; reflexivity).
  destruct (del_swallows_errors (header_only false)) as (Hret & _ & Hkeep).
  destruct (del_swallows_errors MRC2014.writable_object) as (_ & Hrel & _).
  split; [exact H1|]. split; [exact Hret|].
  split; [exact (Hkeep _ H1)|exact (proj1 (Hrel H2))].
Defined.

Lemma close_skips_flush_witness :
  stream_calls (snd (close stream_closed_object)) = [CallRead 1024; CallRead 3; CallRead 4]
  /\ _data (snd (close stream_closed_object)) = None
  /\ close (MrcObject_init false) = (inr tt, MrcObject_init false).
Proof.
  assert (Hclosed : _header stream_closed_object = None
                    \/ exists io, _iostream stream_closed_object = Some io
                                  /\ closed io = true).
  { right. eexists. split; vm_compute; reflexivity. }
  destruct (close_skips_flush stream_closed_object Hclosed) as (Hrun & Hio).
  destruct (close_skips_flush (MrcObject_init false) (or_introl eq_refl)) as (Hnew & _).
  split; [|split].
  - unfold stream_calls. rewrite Hio. vm_compute. reflexivity.
  - rewrite Hrun. reflexivity.
  - exact Hnew.
Defined.

Lemma close_writes_and_releases_witness :
  fst (close MRC2014.writable_object) = inr tt
  /\ stream_content (snd (close MRC2014.writable_object))
     = MRC2014.example_file LittleEndian
  /\ _header (snd (close MRC2014.writable_object)) = None.
Proof.
  destruct (close_writes_and_releases MRC2014.writable_object
              (mk_header (MRC2014.example_header LittleEndian x02 x03) LittleEndian true)
              (mk_ndarray MRC2014.example_ext V1 [3] true)
              (mk_ndarray (MRC2014.one_and_a_half LittleEndian) (mk_dtype "f4" 4)
                 [1; 1; 1] true)
              (mk_iostream (MRC2014.example_file LittleEndian ++ [xff; xff]) 1031 false
                 [CallRead 1024; CallRead 3; CallRead 4])
              eq_refl eq_refl eq_refl eq_refl eq_refl eq_refl)
    as (s' & Hrun & _ & Hcontent & _ & Hheader & _).
  rewrite Hrun. cbn [fst snd]. split; [reflexivity|]. split; assumption.
Defined.

Lemma flush_twice_witness :
  stream_bytes (snd (flush (snd (flush MRC2014.writable_object))))
  = stream_bytes (snd (flush MRC2014.writable_object)).
Proof.
  destruct (flush_twice_same_bytes MRC2014.writable_object
              (mk_header (MRC2014.example_header LittleEndian x02 x03) LittleEndian true)
              (mk_ndarray MRC2014.example_ext V1 [3] true)
              (mk_ndarray (MRC2014.one_and_a_half LittleEndian) (mk_dtype "f4" 4)
                 [1; 1; 1] true)
              (mk_iostream (MRC2014.example_file LittleEndian ++ [xff; xff]) 1031 false
                 [CallRead 1024; CallRead 3; CallRead 4])
              eq_refl eq_refl eq_refl eq_refl eq_refl eq_refl)
    as (s1 & s2 & H1 & H2 & Hbytes & _).
  rewrite H1. cbn [snd]. rewrite H2. cbn [snd]. exact Hbytes.
Defined.

Lemma read_takes_consecutive_regions_witness :
  _data (snd (_read before_read))
  = Some (mk_ndarray (MRC2014.one_and_a_half LittleEndian) (mk_dtype "f4" 4)
            [1; 1; 1] true)
  /\ exists io io' h e,
       _iostream before_read = Some io
       /\ _iostream (snd (_read before_read)) = Some io'
       /\ _header (snd (_read before_read)) = Some h
       /\ _extended_header (snd (_read before_read)) = Some e
       /\ length (header_bytes h) = HEADER_DTYPE_itemsize
       /\ Stream.remaining io =
            header_bytes h ++ array_bytes e ++ MRC2014.one_and_a_half LittleEndian
              ++ Stream.remaining io'
       /\ position io' =
            (position io + length (header_bytes h) + length (array_bytes e)
             + length (MRC2014.one_and_a_half LittleEndian))%nat
       /\ content io' = content io.
Proof.
  assert (Hrun : _read before_read = (inr tt, snd (_read before_read)))
    by (vm_compute; reflexivity).
  assert (Hdata : _data (snd (_read before_read))
                  = Some (mk_ndarray (MRC2014.one_and_a_half LittleEndian)
                            (mk_dtype "f4" 4) [1; 1; 1] true))
    by (vm_compute; reflexivity).
  split; [exact Hdata|].
  exact (@read_takes_consecutive_regions MRC2014.header_dtype MRC2014.constants
           MRC2014.utils before_read _ _ Hrun Hdata).
Defined.

Lemma writeable_mirrors_read_only_witness :
  _read_only MRC2014.read_only_object = true
  /\ exists h e,
       _header MRC2014.read_only_object = Some h
       /\ header_writeable h = false
       /\ _extended_header MRC2014.read_only_object = Some e
       /\ array_writeable e = false
       /\ (forall d, _data MRC2014.read_only_object = Some d -> array_writeable d = false)
       /\ _read_only MRC2014.read_only_object = true.
Proof.
  assert (Hrun : _read (set_permissive false
                          (set_iostream
                             (Some (Stream.of_bytes (MRC2014.example_file LittleEndian)))
                             (MrcObject_init true)))
                 = (inr tt, MRC2014.read_only_object))
    by (vm_compute; reflexivity).
  split; [reflexivity|].
  exact (@writeable_mirrors_read_only MRC2014.header_dtype MRC2014.constants
           MRC2014.utils _ _ Hrun).
Defined.

Lemma open_then_flush_witness :
  exists h e s2 trailing,
    _header MRC2014.writable_object = Some h
    /\ _extended_header MRC2014.writable_object = Some e
    /\ Stream.remaining
         (Stream.of_bytes (MRC2014.example_file LittleEndian ++ [xff; xff]))
       = (header_bytes h ++ array_bytes e ++ MRC2014.one_and_a_half LittleEndian)
           ++ trailing
    /\ flush MRC2014.writable_object = (inr tt, s2)
    /\ stream_content s2
       = header_bytes h ++ array_bytes e ++ MRC2014.one_and_a_half LittleEndian.
Proof.
  assert (Hrun : __init__
                   (Some (Stream.of_bytes (MRC2014.example_file LittleEndian ++ [xff; xff])))
                   false false
                 = (inr tt, MRC2014.writable_object))
    by (vm_compute; reflexivity).
  assert (Hdata : _data MRC2014.writable_object
                  = Some (mk_ndarray (MRC2014.one_and_a_half LittleEndian)
                            (mk_dtype "f4" 4) [1; 1; 1] true))
    by (vm_compute; reflexivity).
  exact (@open_then_flush_keeps_what_was_read MRC2014.header_dtype MRC2014.constants
           MRC2014.utils MRC2014.platform _ false _ _ Hrun Hdata).
Defined.

Lemma read_data_takes_exactly_nbytes_witness :
  exists s' db,
    _read_data (before_data true (MRC2014.example_file LittleEndian ++ [xff; xff]))
    = (inr tt, s')
    /\ _data s' = Some (mk_ndarray db (mk_dtype "f4" 4) [1; 1; 1] true)
    /\ db = MRC2014.one_and_a_half LittleEndian
    /\ option_map position (_iostream s') = Some 1031%nat
    /\ warnings s' = [].
Proof.
  assert (Hshape : Forall (fun d => 0 <= d) [1; 1; 1]) by (repeat constructor; lia).
  assert (Hle : 4 * Np.prod [1; 1; 1]
                <= Z.of_nat (length (Stream.remaining
                                       (mk_iostream
                                          (MRC2014.example_file LittleEndian ++ [xff; xff])
                                          1027 false [CallRead 1024; CallRead 3]))))
    by (vm_compute; discriminate).
  assert (Hmax : 4 * Np.prod [1; 1; 1] <= PY_SSIZE_T_MAX)
    by (vm_compute; discriminate).
  destruct (@read_data_takes_exactly_nbytes MRC2014.utils
              (before_data true (MRC2014.example_file LittleEndian ++ [xff; xff]))
              (mk_header (MRC2014.example_header LittleEndian x02 x03) LittleEndian true)
              (mk_iostream (MRC2014.example_file LittleEndian ++ [xff; xff]) 1027 false
                 [CallRead 1024; CallRead 3])
              (mk_dtype "f4" 4) [1; 1; 1]
              eq_refl eq_refl eq_refl eq_refl eq_refl eq_refl Hshape Hle Hmax)
    as (s' & db & Hrun & Hdata & Hdb & _ & Hpos & _ & Hwarn).
  exists s', db. split; [exact Hrun|]. split; [exact Hdata|].
  split; [rewrite Hdb; vm_compute; reflexivity|].
  split; [rewrite Hpos; reflexivity|].
  rewrite Hwarn. vm_compute. reflexivity.
Defined.

